(** * DESI coadd spectrum service: a model of [backend/main.py]

    The service answers two requests, [/coadd/{targetid}] and
    [/coadd-csv/{targetid}], from an in-memory catalog table
    ([zall-pix-fuji]) and a tree of per-healpix coadd FITS files.  The
    model follows the Python source: values are Python and numpy values,
    the two handlers run in a state-and-exception monad over the process
    state (the [payload] dictionary, the files on disk, standard output),
    and [try]/[except] is an explicit handler.

    What the source delegates to numpy and astropy without fixing it in
    its own text (the wording of exception messages, numpy's [==], casts
    and the CSV writer) is the interface [Library], over which the
    development is parametric. *)

From Stdlib Require Import ZArith String Ascii DecimalString.
From Stdlib Require Import Floats.SpecFloat.
From stdpp Require Import base option list gmap strings.

Local Open Scope Z_scope.
Set Warnings "-register-all".

(** ** Python and numpy values *)

(** Widths of numpy integer and floating-point scalars. *)
Inductive int_dtype :=
  int8 | int16 | int32 | int64 | uint8 | uint16 | uint32 | uint64.

Inductive float_dtype := float16 | float32 | float64.

(** A numpy scalar: its type and the number it holds.  A floating-point
    scalar holds an IEEE datum; widening it to a Python [float] keeps
    the datum. *)
Inductive npscalar :=
| NpInt (dt : int_dtype) (v : Z)
| NpFloat (dt : float_dtype) (x : spec_float)
| NpBool (b : bool).

(** The elements of a numpy array, by axis: an element, a masked element
    of a masked array, or the sub-array one index selects. *)
Inductive ndarray :=
| Item (x : npscalar)
| MaskedItem
| Sub (items : list ndarray).

(** Python values.  [NpMasked] is [np.ma.masked]; [NpArray items] is an
    [np.ndarray] of at least one axis. *)
Inductive pyval :=
| PyNone
| PyBool (b : bool)
| PyInt (n : Z)
| PyFloat (x : spec_float)
| PyStr (s : string)
| PyList (l : list pyval)
| PyDict (d : list (string * pyval))
| NpMasked
| NpScalar (x : npscalar)
| NpArray (items : list ndarray).

(** A Python [dict] with string keys, in insertion order. *)
Abbreviation dict := (list (string * pyval)).

(** [d[key] = value] *)
Fixpoint dict_set (d : dict) (key : string) (value : pyval) : dict :=
  match d with
  | [] => [(key, value)]
  | (k, v) :: d' =>
      if String.eqb k key then (k, value) :: d'
      else (k, v) :: dict_set d' key value
  end.

Fixpoint dict_get (d : dict) (key : string) : option pyval :=
  match d with
  | [] => None
  | (k, v) :: d' => if String.eqb k key then Some v else dict_get d' key
  end.

(** ** Exceptions *)

Inductive keyerr :=
| DictKey (key : string)            (* a dict without the key *)
| NoMatches (item : Z)              (* Table.loc: no row for the item *)
| ExtensionNotFound (ext : string)  (* HDUList: no HDU of that name *)
| FieldNotFound (field : string)    (* record array: no such column *)
| AmbiguousField (field : string).  (* record array: several columns match *)

Inductive pyexc :=
| KeyError (k : keyerr)
| IndexError
| TypeError
| AttributeError
| ValueError
| FileNotFoundError (path : string)
| HTTPException (status_code : Z) (detail : string).

Inductive outcome (A : Type) :=
| Returns (a : A)
| Raises (e : pyexc).
Arguments Returns {A} a.
Arguments Raises {A} e.

#[global] Instance outcome_ret : MRet outcome := λ A a, Returns a.
#[global] Instance outcome_bind : MBind outcome := λ A B f m,
  match m with
  | Returns a => f a
  | Raises e => Raises e
  end.

(** ** The catalog and the coadd files *)

(** A row of [zall-pix-fuji]: the four columns the service reads by
    name, and the remaining columns in table order. *)
Record Row := {
  TARGETID : Z;
  SURVEY : string;
  PROGRAM : string;
  HEALPIX : Z;
  columns : list (string * pyval)
}.

Abbreviation Table := (list Row).

(** A binary table of a FITS file, by column; and the HDUs of a file by
    extension name. *)
Abbreviation BinTable := (list (string * list pyval)).

Inductive HDU :=
| BinTableHDU (data : BinTable)
| ImageHDU (data : list ndarray).

Abbreviation HDUList := (list (string * HDU)).

(** The process state: the module-level [payload] dict, the coadd files
    by path, and what was printed. *)
Record World := {
  payload : gmap string Table;
  disk : gmap string HDUList;
  stdout : list string
}.

(** ** Statements: state and exceptions *)

Definition py (A : Type) : Type := World → outcome A * World.

#[global] Instance py_ret : MRet py := λ A a w, (Returns a, w).
#[global] Instance py_bind : MBind py := λ A B f m w,
  match m w with
  | (Returns a, w') => f a w'
  | (Raises e, w') => (Raises e, w')
  end.

Definition lift {A} (o : outcome A) : py A := λ w, (o, w).
Definition raise {A} (e : pyexc) : py A := λ w, (Raises e, w).

(** [try: body  except Exception as e: handler e] *)
Definition try_except {A} (body : py A) (handler : pyexc → py A) : py A :=
  λ w, match body w with
       | (Returns a, w') => (Returns a, w')
       | (Raises e, w') => handler e w'
       end.

(** [payload[key]] *)
Definition payload_getitem (key : string) : py Table := λ w,
  (match payload w !! key with
   | Some t => Returns t
   | None => Raises (KeyError (DictKey key))
   end, w).

(** [fits.open(path)] *)
Definition fits_open (path : string) : py HDUList := λ w,
  (match disk w !! path with
   | Some hdul => Returns hdul
   | None => Raises (FileNotFoundError path)
   end, w).

(** [print(s)] *)
Definition print (s : string) : py unit := λ w,
  (Returns tt,
   {| payload := payload w; disk := disk w; stdout := stdout w ++ [s] |}).

(** The [lifespan] context manager: before the first request the catalog
    (read and indexed) is stored under ["zall"]; at shutdown the
    dictionary is cleared. *)
Definition lifespan_startup (zall : Table) (w : World) : World :=
  {| payload := <["zall" := zall]> (payload w);
     disk := disk w; stdout := stdout w |}.

Definition lifespan_shutdown (w : World) : World :=
  {| payload := ∅; disk := disk w; stdout := stdout w |}.

(** ** What numpy and astropy provide *)

Class Library := {
  (** [str(e)], the text of an exception *)
  exc_str : pyexc → string;
  (** whether [cell == n] holds (somewhere in the cell, for an
      array-valued cell), for a table cell and a Python [int] *)
  np_eq : pyval → Z → bool;
  (** [.tolist()] of the record array of a table HDU *)
  rec_tolist : BinTable → pyval;
  (** [hdu.data.astype(float)] *)
  astype_float : HDU → outcome (list ndarray);
  (** [Table([wavelength, flux, ivar, mask], names=...)], the [.1f]
      format of its first column, and [table.write(buffer, format='csv')]:
      the text written *)
  table_csv : list ndarray → ndarray → ndarray → ndarray → outcome string
}.

(** ** Conversions to plain Python values *)

(** [int(x)], [float(x)], [bool(x)] as [ndarray.tolist] applies them to
    an element: every numpy scalar has a Python counterpart. *)
Definition item (x : npscalar) : pyval :=
  match x with
  | NpInt _ v => PyInt v
  | NpFloat _ x => PyFloat x
  | NpBool b => PyBool b
  end.

(** [a.tolist()]: nested lists of Python scalars, [None] for a masked
    element. *)
Fixpoint tolist (a : ndarray) : pyval :=
  match a with
  | Item x => item x
  | MaskedItem => PyNone
  | Sub items => PyList (map tolist items)
  end.

(** The [isinstance] chain of [row2dict] and [rec2dict] (lines 40-51 and
    60-71), in source order. *)
Definition convert (value : pyval) : pyval :=
  match value with
  | NpMasked => PyNone
  | NpArray items => PyList (map tolist items)
  | NpScalar (NpInt int64 v) | NpScalar (NpInt int32 v)
  | NpScalar (NpInt int16 v) | NpScalar (NpInt uint8 v) => PyInt v
  | NpScalar (NpFloat float64 x) | NpScalar (NpFloat float32 x) => PyFloat x
  | NpScalar (NpBool b) | PyBool b => PyBool b
  | _ => value
  end.

(** [row.keys()] and [row[key]] *)
Definition row_items (row : Row) : list (string * pyval) :=
  ("TARGETID", NpScalar (NpInt int64 (TARGETID row))) ::
  ("SURVEY", PyStr (SURVEY row)) ::
  ("PROGRAM", PyStr (PROGRAM row)) ::
  ("HEALPIX", NpScalar (NpInt int32 (HEALPIX row))) ::
  columns row.

Definition row_keys (row : Row) : list string := (row_items row).*1.

Definition row_getitem (row : Row) (key : string) : option pyval :=
  dict_get (row_items row) key.

(** The loop of [row2dict] over the remaining [keys], with the
    dictionary [d] built so far.  A key of [row.keys()] always has a
    value. *)
Fixpoint row2dict_loop (row : Row) (keys : list string) (d : dict) : dict :=
  match keys with
  | [] => d
  | key :: keys' =>
      match row_getitem row key with
      | Some value => row2dict_loop row keys' (dict_set d key (convert value))
      | None => row2dict_loop row keys' d
      end
  end.

Definition row2dict (row : Row) : dict :=
  row2dict_loop row (row_keys row) [].

(** [rec[key]] on a record array *)
Fixpoint rec_field (rec : BinTable) (key : string) : outcome (list pyval) :=
  match rec with
  | [] => Raises (KeyError (FieldNotFound key))
  | (k, col) :: rec' => if String.eqb k key then Returns col else rec_field rec' key
  end.

(** ASCII whitespace, as [str.strip] takes it; the names of HDUs and
    columns are ASCII. *)
Definition is_space (c : ascii) : bool :=
  let n := N_of_ascii c in
  ((9 <=? n) && (n <=? 13) || (28 <=? n) && (n <=? 32))%N.

Fixpoint lstrip_chars (l : list ascii) : list ascii :=
  match l with
  | c :: l' => if is_space c then lstrip_chars l' else l
  | [] => []
  end.

(** [s.rstrip()], [s.strip()] *)
Definition rstrip (s : string) : string :=
  string_of_list_ascii (rev (lstrip_chars (rev (list_ascii_of_string s)))).

Definition strip (s : string) : string :=
  rstrip (string_of_list_ascii (lstrip_chars (list_ascii_of_string s))).

Definition upper_char (c : ascii) : ascii :=
  let n := N_of_ascii c in
  if ((97 <=? n) && (n <=? 122))%N then ascii_of_N (n - 32) else c.

Definition lower_char (c : ascii) : ascii :=
  let n := N_of_ascii c in
  if ((65 <=? n) && (n <=? 90))%N then ascii_of_N (n + 32) else c.

(** [s.upper()], [s.lower()] *)
Definition upper (s : string) : string :=
  string_of_list_ascii (map upper_char (list_ascii_of_string s)).

Definition lower (s : string) : string :=
  string_of_list_ascii (map lower_char (list_ascii_of_string s)).

(** [rec[key]] as the code writes it with a literal key: the column of
    that name ([key.rstrip()], matched exactly, the first one), and
    failing that the only column whose name matches without regard to
    case; no such column, or several, is a [KeyError]. *)
Definition rec_getitem (rec : BinTable) (key : string)
    : outcome (list pyval) :=
  match rec_field rec (rstrip key) with
  | Returns col => Returns col
  | Raises _ =>
      match filter (λ c, lower (rstrip c.1) = lower (rstrip key)) rec with
      | [] => Raises (KeyError (FieldNotFound key))
      | [c] => Returns c.2
      | _ => Raises (KeyError (AmbiguousField key))
      end
  end.

(** [x[i]] on a sequence *)
Definition getitem {A} (l : list A) (i : nat) : outcome A :=
  match l !! i with
  | Some a => Returns a
  | None => Raises IndexError
  end.

(** The loop of [rec2dict]: [rec[key][ispec]] raises when the row is
    out of range.  Here [key] is one of [rec.dtype.names], which the
    exact match finds. *)
Fixpoint rec2dict_loop (rec : BinTable) (ispec : nat) (keys : list string)
    (d : dict) : outcome dict :=
  match keys with
  | [] => Returns d
  | key :: keys' =>
      col ← rec_field rec key;
      value ← getitem col ispec;
      rec2dict_loop rec ispec keys' (dict_set d key (convert value))
  end.

Definition rec2dict (rec : BinTable) (ispec : nat) : outcome dict :=
  rec2dict_loop rec ispec rec.*1 [].

(** ** The retrieval path *)

(** [zall.loc[targetid]] through the index on [TARGETID]: no row raises
    [KeyError], one row is that row, several rows are a table. *)
Inductive loc_result :=
| LocRow (r : Row)
| LocTable (rows : Table).

Definition loc (zall : Table) (targetid : Z) : outcome loc_result :=
  match filter (λ r, TARGETID r = targetid) zall with
  | [] => Raises (KeyError (NoMatches targetid))
  | [r] => Returns (LocRow r)
  | rows => Returns (LocTable rows)
  end.

(** [str(n)] of an integer, as an f-string prints it *)
Definition str_int (n : Z) : string := NilZero.string_of_int (Z.to_int n).

(** A numpy integer as a float64 (round to nearest even). *)
Definition float64_of_int (n : Z) : spec_float :=
  binary_normalize 53 1024 n 0 false.

(** [x / y] on float64 *)
Definition true_divide (x y : spec_float) : spec_float := SFdiv 53 1024 x y.

(** [int(x)]: truncation toward zero.  A quotient of a 64-bit integer by
    100 is finite or zero; [int] of an infinity or a nan raises, and is
    left at 0 here. *)
Definition int_of_float (x : spec_float) : Z :=
  match x with
  | S754_finite s m e =>
      let a := if 0 <=? e then Zpos m * 2 ^ e else Zpos m / 2 ^ (- e) in
      if s then - a else a
  | _ => 0
  end.

(** Lines 84-88 and 139-143.  [pixnum / 100] is numpy's true division,
    a float64 quotient of the two operands as float64, and [int]
    truncates it. *)
Definition file_coadd (survey program : string) (pixnum : Z) : string :=
  let pix :=
    int_of_float (true_divide (float64_of_int pixnum) (float64_of_int 100)) in
  "/data/desi/healpix/" +:+ survey +:+ "/" +:+ program +:+ "/" +:+
  str_int pix +:+ "/" +:+ str_int pixnum +:+ "/coadd-" +:+ survey +:+ "-" +:+
  program +:+ "-" +:+ str_int pixnum +:+ ".fits".

(** On a selection of several rows the fields are columns, and [int] of
    a column of several numbers raises [TypeError]. *)
Definition selected_row (r : loc_result) : outcome Row :=
  match r with
  | LocRow row => Returns row
  | LocTable _ => Raises TypeError
  end.

(** The name under which [HDUList.index_of] compares: stripped and in
    upper case. *)
Definition extname (name : string) : string := upper (strip name).

(** The first HDU of the given compared name. *)
Fixpoint hdul_find (hdul : HDUList) (key : string) : option HDU :=
  match hdul with
  | [] => None
  | (n, hdu) :: hdul' =>
      if String.eqb n key then Some hdu else hdul_find hdul' key
  end.

(** [hdul[name]]: the key is compared stripped and in upper case with
    the names of the HDUs taken the same way; an [HDUList] of the model
    holds each HDU under that compared name ([EXTNAME.strip().upper()]).
    The key ['PRIMARY'], which also names the first HDU, is none the
    handlers ask for. *)
Definition hdul_getitem (hdul : HDUList) (name : string) : outcome HDU :=
  match hdul_find hdul (extname name) with
  | Some hdu => Returns hdu
  | None => Raises (KeyError (ExtensionNotFound name))
  end.

(** [fits.getdata(path, ext)] *)
Definition getdata (path ext : string) : py HDU :=
  hdul ← fits_open path;
  lift (hdul_getitem hdul ext).

(** [np.argwhere(mask)], the positions of the true entries in order,
    counted from [i] *)
Fixpoint argwhere_from (i : nat) (mask : list bool) : list nat :=
  match mask with
  | [] => []
  | b :: mask' =>
      if b then i :: argwhere_from (S i) mask' else argwhere_from (S i) mask'
  end.

Definition argwhere (mask : list bool) : list nat := argwhere_from 0 mask.

Section Service.
Context `{Library}.

(** Lines 92 and 147:
    [np.argwhere(fibermap['TARGETID'] == targetid)[0][0]].  A plain
    array, the data of an image HDU, has no field to index by name. *)
Definition row_index (fibermap : HDU) (targetid : Z) : outcome nat :=
  match fibermap with
  | ImageHDU _ => Raises IndexError
  | BinTableHDU rec =>
      ids ← rec_getitem rec "TARGETID";
      getitem (argwhere (map (λ c, np_eq c targetid) ids)) 0
  end.

(** Lines 81-92 and 136-147, the steps both handlers start with: the
    catalog row, the file path, and the row of the object in the file. *)
Definition locate (zall : Table) (targetid : Z) : py (Row * string * nat) :=
  r ← lift (loc zall targetid);
  row ← lift (selected_row r);
  let path := file_coadd (SURVEY row) (PROGRAM row) (HEALPIX row) in
  fibermap ← getdata path "FIBERMAP";
  ispec ← lift (row_index fibermap targetid);
  mret (row, path, ispec).

(** [scores = rec2dict(fits.getdata(file_coadd, 'SCORES'), ispec)];
    [rec.dtype.names] of a plain array is [None], which the loop cannot
    iterate. *)
Definition read_scores (path : string) (ispec : nat) : py dict :=
  scores ← getdata path "SCORES";
  match scores with
  | BinTableHDU rec => lift (rec2dict rec ispec)
  | ImageHDU _ => raise TypeError
  end.

(** [hdul[name].data.tolist()] *)
Definition data_tolist (hdul : HDUList) (name : string) : outcome pyval :=
  hdu ← hdul_getitem hdul name;
  match hdu with
  | ImageHDU items => Returns (PyList (map tolist items))
  | BinTableHDU rec => Returns (rec_tolist rec)
  end.

(** [hdul[name].section[ispec]]; only an image HDU has sections. *)
Definition section (hdul : HDUList) (name : string) (ispec : nat)
    : outcome ndarray :=
  hdu ← hdul_getitem hdul name;
  match hdu with
  | ImageHDU items => getitem items ispec
  | BinTableHDU _ => Raises AttributeError
  end.

(** The four assignments for one arm (lines 104-107, 109-112, 114-117);
    [arm] is the prefix of the HDU names, [key] that of the dictionary
    keys. *)
Definition read_arm (hdul : HDUList) (ispec : nat) (arm key : string)
    (data : dict) : outcome dict :=
  wavelength ← data_tolist hdul (arm +:+ "_WAVELENGTH");
  let data := dict_set data (key +:+ "_wavelength") wavelength in
  flux ← section hdul (arm +:+ "_FLUX") ispec;
  let data := dict_set data (key +:+ "_flux") (tolist flux) in
  ivar ← section hdul (arm +:+ "_IVAR") ispec;
  let data := dict_set data (key +:+ "_ivar") (tolist ivar) in
  mask ← section hdul (arm +:+ "_MASK") ispec;
  let data := dict_set data (key +:+ "_mask") (tolist mask) in
  mret data.

(** The body of the [try] of [get_coadd_spectrum_json] (lines 81-121). *)
Definition json_body (zall : Table) (targetid : Z) : py pyval :=
  '(row, path, ispec) ← locate zall targetid;
  let info := row2dict row in
  scores ← read_scores path ispec;
  hdul ← fits_open path;
  data ← lift (data ← read_arm hdul ispec "B" "b" [];
               data ← read_arm hdul ispec "R" "r" data;
               read_arm hdul ispec "Z" "z" data);
  mret (PyDict [("zall_pix_info", PyDict info);
                ("scores", PyDict scores);
                ("data", PyDict data)]).

(** The [except] clauses of [get_coadd_spectrum_json] (lines 123-127):
    the exception each raises in place of [e]. *)
Definition json_except (e : pyexc) : pyexc :=
  match e with
  | KeyError _ =>
      HTTPException 404
        ("TARGETID not found in `zall-pix-fuji` table. " +:+ exc_str e)
  | _ => HTTPException 500 ("Internal Server Error: " +:+ exc_str e)
  end.

(** [GET /coadd/{targetid}] *)
Definition get_coadd_spectrum_json (targetid : Z) : py pyval :=
  zall ← payload_getitem "zall";
  try_except (json_body zall targetid) (λ e, raise (json_except e)).

(** What [StreamingResponse(buffer, media_type=...)] sends *)
Record StreamingResponse := {
  content : string;
  media_type : string
}.

(** Lines 152-164: the four arrays of the arm [filter] for row [ispec],
    and the CSV text of the table made of them. *)
Definition read_table (hdul : HDUList) (ispec : nat) (filter : string)
    : outcome string :=
  hdu ← hdul_getitem hdul (filter +:+ "_WAVELENGTH");
  wavelength ← astype_float hdu;
  flux ← section hdul (filter +:+ "_FLUX") ispec;
  ivar ← section hdul (filter +:+ "_IVAR") ispec;
  mask ← section hdul (filter +:+ "_MASK") ispec;
  table_csv wavelength flux ivar mask.

(** The body of the [try] of [get_coadd_spectrum_csv] (lines 136-169). *)
Definition csv_body (zall : Table) (targetid : Z) (filter : string)
    : py StreamingResponse :=
  '(row, path, ispec) ← locate zall targetid;
  _ ← print filter;
  hdul ← fits_open path;
  buffer ← lift (read_table hdul ispec filter);
  mret {| content := buffer; media_type := "text/csv" |}.

(** The [except] clauses of [get_coadd_spectrum_csv] (lines 171-175). *)
Definition csv_except (e : pyexc) : pyexc :=
  match e with
  | KeyError _ => HTTPException 404 (exc_str e)
  | _ => HTTPException 500 ("Internal Server Error: " +:+ exc_str e)
  end.

(** [GET /coadd-csv/{targetid}], called with an explicit [filter] *)
Definition get_coadd_spectrum_csv (targetid : Z) (filter : string)
    : py StreamingResponse :=
  zall ← payload_getitem "zall";
  try_except (csv_body zall targetid filter) (λ e, raise (csv_except e)).

(** The call as the route makes it: a request without the [filter]
    query parameter binds the declared default ['R']. *)
Definition coadd_csv (targetid : Z) (filter : option string)
    : py StreamingResponse :=
  get_coadd_spectrum_csv targetid (default "R" filter).

End Service.

(** ** Plain values *)

(** A value made of Python scalars, strings, lists and dicts only: no
    numpy scalar, masked constant or array inside. *)
Fixpoint plain (v : pyval) : bool :=
  match v with
  | PyNone | PyBool _ | PyInt _ | PyFloat _ | PyStr _ => true
  | PyList l => forallb plain l
  | PyDict d => forallb (λ kv, plain kv.2) d
  | NpMasked | NpScalar _ | NpArray _ => false
  end.

(** The numpy scalar types [row2dict] and [rec2dict] name. *)
Definition converted (x : npscalar) : bool :=
  match x with
  | NpInt (int64 | int32 | int16 | uint8) _ => true
  | NpFloat (float64 | float32) _ => true
  | NpBool _ => true
  | _ => false
  end.

(** The keys of [data] in a full document, in the order they are set. *)
Definition data_keys : list string :=
  ["b_wavelength"; "b_flux"; "b_ivar"; "b_mask";
   "r_wavelength"; "r_flux"; "r_ivar"; "r_mask";
   "z_wavelength"; "z_flux"; "z_ivar"; "z_mask"].

(** A statement that leaves the process state as it found it. *)
Definition readonly {A} (m : py A) : Prop := ∀ w, (m w).2 = w.

(** [GET /] (lines 30-32) *)
Definition root : py pyval :=
  mret (PyDict [("message", PyStr "Hello World from FastAPI!")]).

(** A cell whose conversion is a plain value: the masked constant, an
    array, a numpy scalar of a type the [isinstance] chain names, or a
    value that is plain already. *)
Definition native (v : pyval) : bool :=
  match v with
  | NpMasked | NpArray _ => true
  | NpScalar x => converted x
  | _ => plain v
  end.

(** The three arms of a coadd file: the prefix of the HDU names and
    that of the keys of [data]. *)
Definition arm_names : list (string * string) :=
  [("B", "b"); ("R", "r"); ("Z", "z")].

(** The extensions [get_coadd_spectrum_json] reads by name, in the
    order it reads them. *)
Definition coadd_extensions : list string :=
  ["FIBERMAP"; "SCORES";
   "B_WAVELENGTH"; "B_FLUX"; "B_IVAR"; "B_MASK";
   "R_WAVELENGTH"; "R_FLUX"; "R_IVAR"; "R_MASK";
   "Z_WAVELENGTH"; "Z_FLUX"; "Z_IVAR"; "Z_MASK"].

(** ** A small catalog and coadd file to run the service on *)

Module Demo.

Definition demo_str (e : pyexc) : string :=
  match e with
  | KeyError (DictKey k) => "'" +:+ k +:+ "'"
  | KeyError (NoMatches i) => "'No matches found for key " +:+ str_int i +:+ "'"
  | KeyError (ExtensionNotFound x) => "Extension '" +:+ x +:+ "' not found."
  | KeyError (FieldNotFound x) => "Key '" +:+ x +:+ "' does not exist."
| KeyError (AmbiguousField x) => "Ambiguous key name '" +:+ x +:+ "'."
  | IndexError => "index 0 is out of bounds for axis 0 with size 0"
  | TypeError => "only length-1 arrays can be converted to Python scalars"
  | AttributeError => "object has no attribute"
  | ValueError => "Inconsistent data column lengths"
  | FileNotFoundError p => "No such file or directory: '" +:+ p +:+ "'"
  | HTTPException _ d => d
  end.

(** [==] on integer cells *)
Definition int_eq (c : pyval) (n : Z) : bool :=
  match c with
  | NpScalar (NpInt _ v) => v =? n
  | _ => false
  end.

#[local] Instance lib : Library := {|
  exc_str := demo_str;
  np_eq := int_eq;
  rec_tolist := λ rec, PyList [];
  astype_float := λ hdu,
    match hdu with
    | ImageHDU items => Returns items
    | BinTableHDU _ => Raises TypeError
    end;
  table_csv := λ _ _ _ _, Returns "wavelength,flux,ivar,mask"
|}.

Definition one : spec_float := S754_finite false 1 0.
Definition f32 (x : spec_float) : ndarray := Item (NpFloat float32 x).
Definition f64 (x : spec_float) : ndarray := Item (NpFloat float64 x).
Definition i32 (n : Z) : ndarray := Item (NpInt int32 n).

(** One arm of a file of two spectra, three samples each. *)
Definition arm (a : string) : HDUList :=
  [(a +:+ "_WAVELENGTH", ImageHDU [f64 one; f64 one; f64 one]);
   (a +:+ "_FLUX", ImageHDU [Sub [f32 one; f32 one; f32 one];
                             Sub [f32 one; f32 one; f32 one]]);
   (a +:+ "_IVAR", ImageHDU [Sub [f32 one; f32 one; f32 one];
                             Sub [f32 one; f32 one; f32 one]]);
   (a +:+ "_MASK", ImageHDU [Sub [i32 0; i32 0; i32 0];
                             Sub [i32 0; i32 0; i32 0]])].

Definition id64 (n : Z) : pyval := NpScalar (NpInt int64 n).

Definition fibermap : HDU :=
  BinTableHDU [("TARGETID", [id64 39633345008634000; id64 39633345008634311;
                             id64 39633345008634311]);
               ("FIBER", [NpScalar (NpInt int32 12); NpScalar (NpInt int32 13);
                          NpScalar (NpInt int32 14)])].

(** A fibermap that lacks the object the catalog sends here. *)
Definition fibermap_drift : HDU :=
  BinTableHDU [("TARGETID", [id64 39633345008634000; id64 39633345008634001])].

Definition scores : HDU :=
  BinTableHDU [("TSNR2_LRG", [NpScalar (NpFloat float32 one);
                              NpScalar (NpFloat float32 one)])].

Definition arms : HDUList := arm "B" ++ arm "R" ++ arm "Z".
Definition coadd : HDUList := ("FIBERMAP", fibermap) :: ("SCORES", scores) :: arms.
Definition coadd_drift : HDUList :=
  ("FIBERMAP", fibermap_drift) :: ("SCORES", scores) :: arms.
Definition coadd_no_fibermap : HDUList := ("SCORES", scores) :: arms.
Definition coadd_no_scores : HDUList := ("FIBERMAP", fibermap) :: arms.
Definition coadd_no_z : HDUList :=
  ("FIBERMAP", fibermap) :: ("SCORES", scores) :: arm "B" ++ arm "R".

Definition targetid : Z := 39633345008634311.

Definition row : Row :=
  {| TARGETID := targetid; SURVEY := "main"; PROGRAM := "dark";
     HEALPIX := 9103;
     columns := [("Z", NpScalar (NpFloat float64 one));
                 ("ZWARN", NpScalar (NpInt int64 0));
                 ("COEFF", NpArray [f64 one; f64 one]);
                 ("FLUX_G", NpMasked);
                 ("SPECTYPE", PyStr "GALAXY")] |}.

(** A row with a column of 16-bit unsigned integers. *)
Definition row_u16 : Row :=
  {| TARGETID := 7; SURVEY := "sv1"; PROGRAM := "bright"; HEALPIX := 12345;
     columns := [("NUMOBS", NpScalar (NpInt uint16 3))] |}.

Definition zall : Table := [row; row_u16].

Definition path : string :=
  "/data/desi/healpix/main/dark/91/9103/coadd-main-dark-9103.fits".

Definition world_of (hdul : HDUList) : World :=
  lifespan_startup zall
    {| payload := ∅; disk := {[ path := hdul ]}; stdout := [] |}.

Definition world : World := world_of coadd.

(** The catalog loaded, and no coadd file on disk. *)
Definition world_no_file : World :=
  lifespan_startup zall {| payload := ∅; disk := ∅; stdout := [] |}.

(** A catalog in which two rows carry the same identifier. *)
Definition world_twice : World :=
  lifespan_startup [row; row_u16; row]
    {| payload := ∅; disk := {[ path := coadd ]}; stdout := [] |}.

End Demo.

(** * Properties *)

(** ** Dictionaries, lists of HDUs, and [argwhere] *)

Lemma dict_get_set_eq (d : dict) key value :
  dict_get (dict_set d key value) key = Some value.
Proof.
  induction d as [|[k v] d IH]; simpl.
  - by rewrite String.eqb_refl.
  - destruct (String.eqb k key) eqn:E; simpl; by rewrite E.
Qed.

Lemma dict_get_set_ne (d : dict) key key' value :
  key ≠ key' →
  dict_get (dict_set d key value) key' = dict_get d key'.
Proof.
  intros Hne. induction d as [|[k v] d IH]; simpl.
  - destruct (String.eqb_spec key key'); [done|done].
  - destruct (String.eqb_spec k key) as [->|Hk]; simpl.
    + by destruct (String.eqb_spec key key').
    + by rewrite IH.
Qed.

Lemma lookup_map {A B} (f : A → B) (l : list A) (i : nat) :
  map f l !! i = f <$> l !! i.
Proof.
  revert i. induction l as [|a l IH]; intros [|i]; simpl; auto.
Qed.

Lemma rec_getitem_exact (rec : BinTable) key col :
  rstrip key = key →
  rec_field rec key = Returns col → rec_getitem rec key = Returns col.
Proof. intros Hkey Hcol. unfold rec_getitem. by rewrite Hkey, Hcol. Qed.

Lemma rec_getitem_targetid (rec : BinTable) ids :
  rec_field rec "TARGETID" = Returns ids →
  rec_getitem rec "TARGETID" = Returns ids.
Proof. by apply rec_getitem_exact. Qed.

Lemma hdul_find_missing (hdul : HDUList) key :
  key ∉ hdul.*1 → hdul_find hdul key = None.
Proof.
  induction hdul as [|[n hdu] hdul IH]; csimpl; [done|].
  intros Hn. apply not_elem_of_cons in Hn as [Hne Hn].
  destruct (String.eqb_spec n key); [congruence | auto].
Qed.

Lemma hdul_getitem_missing (hdul : HDUList) name :
  extname name ∉ hdul.*1 →
  hdul_getitem hdul name = Raises (KeyError (ExtensionNotFound name)).
Proof.
  intros Hmissing. unfold hdul_getitem.
  by rewrite (hdul_find_missing _ _ Hmissing).
Qed.

(** The first position [argwhere_from] reports is that of the first true
    entry; it reports none exactly when there is none. *)
Lemma argwhere_from_head i (mask : list bool) :
  match argwhere_from i mask with
  | [] => Forall (λ b, b = false) mask
  | k :: _ => ∃ n : nat, k = (i + n)%nat ∧ mask !! n = Some true ∧
                ∀ j : nat, (j < n)%nat → mask !! j = Some false
  end.
Proof.
  revert i. induction mask as [|b mask IH]; intros i; simpl; [constructor|].
  destruct b.
  - exists 0%nat. split; [lia|]. split; [done|]. intros j Hj. lia.
  - specialize (IH (S i)). destruct (argwhere_from (S i) mask) as [|k ks].
    + by constructor.
    + destruct IH as (n & -> & Hn & Hlt). exists (S n).
      split; [lia|]. split; [done|]. intros [|j] Hj; [done|].
      simpl. apply Hlt. lia.
Qed.

(** After startup the catalog is in [payload]; after shutdown it is
    not. *)
Lemma lifespan_startup_loaded zall w :
  payload (lifespan_startup zall w) !! "zall" = Some zall.
Proof. apply lookup_insert_eq. Qed.

Lemma lifespan_shutdown_cleared w key :
  payload (lifespan_shutdown w) !! key = None.
Proof. apply lookup_empty. Qed.

(** ** Read-only statements *)

Lemma readonly_ret {A} (a : A) : readonly (mret a).
Proof. by intros w. Qed.

Lemma readonly_lift {A} (o : outcome A) : readonly (lift o).
Proof. by intros w. Qed.

Lemma readonly_raise {A} e : readonly (@raise A e).
Proof. by intros w. Qed.

Lemma readonly_bind {A B} (m : py A) (f : A → py B) :
  readonly m → (∀ a, readonly (f a)) → readonly (m ≫= f).
Proof.
  intros Hm Hf w. unfold mbind, py_bind. specialize (Hm w).
  destruct (m w) as [[a|e] w']; simpl in *; subst w'; [apply Hf | done].
Qed.

Lemma readonly_try {A} (body : py A) handler :
  readonly body → (∀ e, readonly (handler e)) →
  readonly (try_except body handler).
Proof.
  intros Hb Hh w. unfold try_except. specialize (Hb w).
  destruct (body w) as [[a|e] w']; simpl in *; subst w'; [done | apply Hh].
Qed.

Lemma readonly_payload_getitem key : readonly (payload_getitem key).
Proof. by intros w. Qed.

Lemma readonly_fits_open path : readonly (fits_open path).
Proof. by intros w. Qed.

Create HintDb readonly.
#[local] Hint Resolve readonly_ret readonly_lift readonly_raise
  readonly_payload_getitem readonly_fits_open : readonly.

Ltac readonly_step :=
  first [ apply readonly_bind; [|intros ?]
        | apply readonly_try; [|intros ?]
        | progress auto with readonly
        | match goal with
          | |- readonly (match ?x with _ => _ end) => destruct x
          end ].

Section ServiceProperties.
Context `{Library}.

Lemma readonly_getdata path ext : readonly (getdata path ext).
Proof. unfold getdata. repeat readonly_step. Qed.

Lemma readonly_locate zall targetid : readonly (locate zall targetid).
Proof.
  unfold locate. repeat readonly_step; auto using readonly_getdata.
Qed.

Lemma readonly_json_body zall targetid : readonly (json_body zall targetid).
Proof.
  unfold json_body, read_scores.
  repeat readonly_step; auto using readonly_getdata, readonly_locate.
Qed.

Lemma readonly_json targetid : readonly (get_coadd_spectrum_json targetid).
Proof.
  unfold get_coadd_spectrum_json.
  repeat readonly_step; auto using readonly_json_body.
Qed.

End ServiceProperties.

(** ** Running the handlers *)

Lemma loc_absent (zall : Table) targetid :
  Forall (λ r, TARGETID r ≠ targetid) zall →
  loc zall targetid = Raises (KeyError (NoMatches targetid)).
Proof.
  intros Habs. unfold loc.
  replace (filter (λ r, TARGETID r = targetid) zall) with (@nil Row); [done|].
  symmetry. induction Habs as [|r zall Hr _ IH]; [done|].
  rewrite filter_cons. by destruct (decide (TARGETID r = targetid)).
Qed.

Lemma argwhere_none (mask : list bool) :
  Forall (λ b, b = false) mask → argwhere mask = [].
Proof.
  unfold argwhere. generalize 0%nat.
  induction mask as [|b mask IH]; intros i Hall; [done|].
  inversion Hall as [|?? -> Hall']; subst. simpl. auto.
Qed.

Section Running.
Context `{Library}.

(** The JSON handler, once the catalog is loaded: the document of the
    body, or the exception the [except] clauses make of the body's. *)
Lemma json_run targetid w zall :
  payload w !! "zall" = Some zall →
  get_coadd_spectrum_json targetid w =
    (match (json_body zall targetid w).1 with
     | Returns output => Returns output
     | Raises e => Raises (json_except e)
     end, w).
Proof.
  intros Hzall. pose proof (readonly_json_body zall targetid w) as Hw.
  unfold get_coadd_spectrum_json, mbind, py_bind, payload_getitem, try_except.
  rewrite Hzall. by destruct (json_body zall targetid w) as [[?|?] ?]; simpl in *; subst.
Qed.

Lemma csv_run targetid filter w zall :
  payload w !! "zall" = Some zall →
  (get_coadd_spectrum_csv targetid filter w).1 =
    match (csv_body zall targetid filter w).1 with
    | Returns response => Returns response
    | Raises e => Raises (csv_except e)
    end.
Proof.
  intros Hzall.
  unfold get_coadd_spectrum_csv, mbind, py_bind, payload_getitem, try_except.
  rewrite Hzall. by destruct (csv_body zall targetid filter w) as [[?|?] ?].
Qed.

(** The shared first steps on a catalog row whose file is on disk: what
    remains is the search of the file's fibermap. *)
Lemma locate_found zall targetid w row hdul :
  loc zall targetid = Returns (LocRow row) →
  disk w !! file_coadd (SURVEY row) (PROGRAM row) (HEALPIX row) = Some hdul →
  locate zall targetid w =
    (fibermap ← hdul_getitem hdul "FIBERMAP";
     ispec ← row_index fibermap targetid;
     mret (row, file_coadd (SURVEY row) (PROGRAM row) (HEALPIX row), ispec),
     w).
Proof.
  intros Hloc Hdisk.
  unfold locate, getdata, fits_open, lift, mbind, py_bind, outcome_bind.
  rewrite Hloc. simpl. rewrite Hdisk.
  destruct (hdul_getitem hdul "FIBERMAP") as [fibermap|e]; [|done].
  by destruct (row_index fibermap targetid).
Qed.

(** The path is computed whether or not the file is there; a missing
    file shows when the fibermap is read. *)
Lemma locate_missing_file zall targetid w row :
  loc zall targetid = Returns (LocRow row) →
  disk w !! file_coadd (SURVEY row) (PROGRAM row) (HEALPIX row) = None →
  locate zall targetid w =
    (Raises (FileNotFoundError
               (file_coadd (SURVEY row) (PROGRAM row) (HEALPIX row))), w).
Proof.
  intros Hloc Hdisk.
  unfold locate, getdata, fits_open, lift, mbind, py_bind.
  rewrite Hloc. simpl. by rewrite Hdisk.
Qed.

Lemma locate_absent zall targetid w :
  Forall (λ r, TARGETID r ≠ targetid) zall →
  locate zall targetid w = (Raises (KeyError (NoMatches targetid)), w).
Proof.
  intros Habs. unfold locate, lift, mbind, py_bind.
  by rewrite (loc_absent _ _ Habs).
Qed.

(** The body of the JSON handler on such a row, as a function of the
    opened file. *)
Lemma json_body_found zall targetid w row hdul :
  loc zall targetid = Returns (LocRow row) →
  disk w !! file_coadd (SURVEY row) (PROGRAM row) (HEALPIX row) = Some hdul →
  (json_body zall targetid w).1 =
    (fibermap ← hdul_getitem hdul "FIBERMAP";
     ispec ← row_index fibermap targetid;
     scores ← (hdu ← hdul_getitem hdul "SCORES";
               match hdu with
               | BinTableHDU rec => rec2dict rec ispec
               | ImageHDU _ => Raises TypeError
               end);
     data ← (data ← read_arm hdul ispec "B" "b" [];
             data ← read_arm hdul ispec "R" "r" data;
             read_arm hdul ispec "Z" "z" data);
     mret (PyDict [("zall_pix_info", PyDict (row2dict row));
                   ("scores", PyDict scores);
                   ("data", PyDict data)])).
Proof.
  intros Hloc Hdisk. unfold json_body.
  unfold mbind at 1. unfold py_bind. rewrite (locate_found _ _ _ _ _ Hloc Hdisk).
  unfold read_scores, getdata, fits_open, lift, raise.
  unfold mbind, mret, py_bind, py_ret, outcome_bind, outcome_ret.
  destruct (hdul_getitem hdul "FIBERMAP") as [fibermap|e]; [|done].
  destruct (row_index fibermap targetid) as [ispec|e]; [|done].
  rewrite Hdisk.
  destruct (hdul_getitem hdul "SCORES") as [[rec|img]|e]; [| done | done].
  destruct (rec2dict rec ispec) as [scores|e]; [|done].
  rewrite Hdisk. by repeat case_match.
Qed.

End Running.

(** ** The conversions *)

Lemma tolist_plain (a : ndarray) : plain (tolist a) = true.
Proof.
  revert a. fix IH 1. intros [x| |items]; simpl.
  - by destruct x.
  - done.
  - induction items as [|a items IHitems]; simpl; [done|].
    by rewrite (IH a), IHitems.
Qed.

Lemma tolist_items_plain (items : list ndarray) :
  plain (PyList (map tolist items)) = true.
Proof.
  simpl. induction items as [|a items IH]; simpl; [done|].
  by rewrite tolist_plain, IH.
Qed.

Lemma dict_get_key (d : dict) key value :
  dict_get d key = Some value → key ∈ d.*1.
Proof.
  induction d as [|[k v] d IH]; simpl; [done|].
  destruct (String.eqb_spec k key) as [->|Hne]; intros Hget.
  - apply elem_of_cons. by left.
  - apply elem_of_cons. right. auto.
Qed.

(** Once [d[key]] holds the converted value of [row[key]], the rest of
    the loop keeps it. *)
Lemma row2dict_loop_keeps row keys (d : dict) key value :
  row_getitem row key = Some value →
  dict_get d key = Some (convert value) →
  dict_get (row2dict_loop row keys d) key = Some (convert value).
Proof.
  intros Hrow. revert d. induction keys as [|k keys IH]; intros d Hd; [done|].
  simpl. destruct (row_getitem row k) as [v|] eqn:Hk; [|auto].
  apply IH. destruct (decide (k = key)) as [->|Hne].
  - rewrite Hrow in Hk. injection Hk as <-. apply dict_get_set_eq.
  - by rewrite dict_get_set_ne.
Qed.

Lemma row2dict_loop_sets row keys (d : dict) key value :
  key ∈ keys →
  row_getitem row key = Some value →
  dict_get (row2dict_loop row keys d) key = Some (convert value).
Proof.
  intros Hin Hrow. revert d.
  induction keys as [|k keys IH]; intros d; [by apply elem_of_nil in Hin|].
  apply elem_of_cons in Hin as [<-|Hin]; simpl.
  - rewrite Hrow. apply row2dict_loop_keeps; [done|]. apply dict_get_set_eq.
  - destruct (row_getitem row k); by apply IH.
Qed.

(** The same for [rec2dict], on the row [ispec] of a record array. *)
Lemma rec2dict_loop_keeps rec ispec keys (d d' : dict) key col value :
  rec2dict_loop rec ispec keys d = Returns d' →
  rec_field rec key = Returns col →
  col !! ispec = Some value →
  dict_get d key = Some (convert value) →
  dict_get d' key = Some (convert value).
Proof.
  intros Hloop Hcol Hval. revert d Hloop.
  induction keys as [|k keys IH]; intros d; simpl.
  - by intros [= <-].
  - unfold mbind, outcome_bind, getitem.
    destruct (rec_field rec k) as [c|] eqn:Hk; [|done].
    destruct (c !! ispec) as [v|] eqn:Hv; [|done].
    intros Hloop Hd. apply (IH _ Hloop).
    destruct (decide (k = key)) as [->|Hne].
    + rewrite Hcol in Hk. injection Hk as <-. rewrite Hval in Hv.
      injection Hv as <-. apply dict_get_set_eq.
    + by rewrite dict_get_set_ne.
Qed.

Lemma rec2dict_loop_sets rec ispec keys (d d' : dict) key col value :
  rec2dict_loop rec ispec keys d = Returns d' →
  key ∈ keys →
  rec_field rec key = Returns col →
  col !! ispec = Some value →
  dict_get d' key = Some (convert value).
Proof.
  intros Hloop Hin Hcol Hval. revert d Hloop.
  induction keys as [|k keys IH]; intros d; [by apply elem_of_nil in Hin|].
  simpl. unfold mbind, outcome_bind, getitem.
  destruct (rec_field rec k) as [c|] eqn:Hk; [|done].
  destruct (c !! ispec) as [v|] eqn:Hv; [|done].
  intros Hloop. apply elem_of_cons in Hin as [->|Hin].
  - rewrite Hcol in Hk. injection Hk as <-. rewrite Hval in Hv.
    injection Hv as <-.
    eapply rec2dict_loop_keeps; eauto using dict_get_set_eq.
  - by apply (IH Hin _ Hloop).
Qed.

Lemma rec_field_key (rec : BinTable) key col :
  rec_field rec key = Returns col → key ∈ rec.*1.
Proof.
  induction rec as [|[k c] rec IH]; simpl; [done|].
  destruct (String.eqb_spec k key) as [->|Hne]; intros Hget.
  - apply elem_of_cons. by left.
  - apply elem_of_cons. right. auto.
Qed.

(** Every column of the record array is in the dictionary of a row,
    converted as the fields of a catalog row are. *)
Lemma rec2dict_converts (rec : BinTable) ispec (d : dict) key col value :
  rec2dict rec ispec = Returns d →
  rec_field rec key = Returns col →
  col !! ispec = Some value →
  dict_get d key = Some (convert value).
Proof.
  intros Hd Hcol Hval.
  eapply rec2dict_loop_sets; eauto using rec_field_key.
Qed.

(** ** The arrays of one arm *)

Section Arms.
Context `{Library}.

Lemma read_arm_sets hdul ispec arm key (data data' : dict) :
  read_arm hdul ispec arm key data = Returns data' →
  ∃ wavelength flux ivar mask,
    data' = dict_set (dict_set (dict_set (dict_set data
              (key +:+ "_wavelength") wavelength)
              (key +:+ "_flux") flux)
              (key +:+ "_ivar") ivar)
              (key +:+ "_mask") mask.
Proof.
  unfold read_arm, mbind, mret, outcome_bind, outcome_ret.
  destruct (data_tolist _ _) as [wavelength|]; [|done].
  destruct (section hdul (arm +:+ "_FLUX") ispec) as [flux|]; [|done].
  destruct (section hdul (arm +:+ "_IVAR") ispec) as [ivar|]; [|done].
  destruct (section hdul (arm +:+ "_MASK") ispec) as [mask|]; [|done].
  intros [= <-]. eauto.
Qed.

(** The three arms, read into an empty [data], leave the twelve keys. *)
Lemma read_arms_keys hdul ispec (data : dict) :
  (data ← read_arm hdul ispec "B" "b" [];
   data ← read_arm hdul ispec "R" "r" data;
   read_arm hdul ispec "Z" "z" data) = Returns data →
  data.*1 = data_keys.
Proof.
  unfold mbind, outcome_bind.
  destruct (read_arm hdul ispec "B" "b" []) as [b|] eqn:Hb; [|done].
  destruct (read_arm hdul ispec "R" "r" b) as [r|] eqn:Hr; [|done].
  intros Hz.
  apply read_arm_sets in Hb as (? & ? & ? & ? & ->).
  apply read_arm_sets in Hr as (? & ? & ? & ? & ->).
  apply read_arm_sets in Hz as (? & ? & ? & ? & ->).
  reflexivity.
Qed.

End Arms.

(** ** Outcomes of the two handlers *)

Section Outcomes.
Context `{Library}.

Lemma json_absent targetid w zall :
  payload w !! "zall" = Some zall →
  Forall (λ r, TARGETID r ≠ targetid) zall →
  (get_coadd_spectrum_json targetid w).1 =
    Raises (HTTPException 404
      ("TARGETID not found in `zall-pix-fuji` table. " +:+
       exc_str (KeyError (NoMatches targetid)))).
Proof.
  intros Hzall Habs. rewrite (json_run _ _ _ Hzall).
  unfold json_body, mbind, py_bind. by rewrite (locate_absent _ _ _ Habs).
Qed.

Lemma csv_absent targetid filter w zall :
  payload w !! "zall" = Some zall →
  Forall (λ r, TARGETID r ≠ targetid) zall →
  (get_coadd_spectrum_csv targetid filter w).1 =
    Raises (HTTPException 404 (exc_str (KeyError (NoMatches targetid)))).
Proof.
  intros Hzall Habs. rewrite (csv_run _ _ _ _ Hzall).
  unfold csv_body, mbind, py_bind. by rewrite (locate_absent _ _ _ Habs).
Qed.


(** A fibermap without the object: the search raises [IndexError]. *)
Lemma row_index_none rec ids targetid :
  rec_field rec "TARGETID" = Returns ids →
  Forall (λ c, np_eq c targetid = false) ids →
  row_index (BinTableHDU rec) targetid = Raises IndexError.
Proof.
  intros Hids Hnone. unfold row_index, mbind, outcome_bind.
  rewrite (rec_getitem_targetid _ _ Hids).
  rewrite argwhere_none; [done|].
  clear Hids. induction ids as [|c ids IH]; simpl; [constructor|].
  inversion Hnone; subst. constructor; auto.
Qed.

End Outcomes.

(** ** The float64 quotient by 100

    Below 2^53 an integer is a float64 as it is, and the rounding of the
    quotient by 100 cannot reach the next integer: truncating the float
    quotient gives the integer quotient. *)

Lemma digits2_size p : digits2_pos p = Pos.size p.
Proof. induction p; simpl; congruence. Qed.

Lemma digits2_log2 p : Zpos (digits2_pos p) = Z.log2 (Zpos p) + 1.
Proof.
  rewrite digits2_size. destruct p; simpl; try reflexivity; rewrite Pos2Z.inj_succ; lia.
Qed.

Lemma digits2_bits p d :
  2 ^ (d - 1) <= Zpos p < 2 ^ d -> 0 < d -> Zpos (digits2_pos p) = d.
Proof.
  intros Hp Hd. rewrite digits2_log2.
  rewrite (Z.log2_unique (Zpos p) (d - 1)); [lia | lia |].
  replace (Z.succ (d - 1)) with d by lia. exact Hp.
Qed.

Lemma iter_xO p n : Zpos (Pos.iter xO p n) = Zpos p * 2 ^ Zpos n.
Proof.
  change (Pos.iter xO p n) with (shift_pos n p). rewrite shift_pos_correct.
  rewrite Zpower_pos_nat, Zpower_nat_Z, positive_nat_Z. lia.
Qed.

Lemma shr_fexp_53 m e l :
  2 ^ 52 <= Zpos m < 2 ^ 53 -> -1074 <= e ->
  shr_fexp 53 1024 (Zpos m) e l = (shr_record_of_loc (Zpos m) l, e).
Proof.
  intros Hm He. unfold shr_fexp, Zdigits2.
  rewrite (digits2_bits m 53) by lia.
  replace (fexp 53 1024 (53 + e) - e) with 0 by (unfold fexp, emin; lia).
  reflexivity.
Qed.

Lemma loc_of_shr_record_of_loc m l :
  loc_of_shr_record (shr_record_of_loc m l) = l.
Proof. destruct l as [|[]]; reflexivity. Qed.

Lemma shr_m_record_of_loc m l : shr_m (shr_record_of_loc m l) = m.
Proof. destruct l as [|[]]; reflexivity. Qed.

(* a 53-bit mantissa in range is kept as it is *)
Lemma binary_round_aux_53 m e :
  2 ^ 52 <= Zpos m < 2 ^ 53 -> -1074 <= e <= 971 ->
  binary_round_aux 53 1024 false (Zpos m) e loc_Exact = S754_finite false m e.
Proof.
  intros Hm He. unfold binary_round_aux.
  rewrite shr_fexp_53 by lia. cbv beta iota.
  rewrite loc_of_shr_record_of_loc, shr_m_record_of_loc.
  unfold round_nearest_even. rewrite shr_fexp_53 by lia. cbv beta iota.
  rewrite shr_m_record_of_loc.
  replace (e <=? 1024 - 53) with true by (symmetry; apply Z.leb_le; lia). reflexivity.
Qed.

Lemma float64_of_int_pos h :
  0 < h < 2 ^ 53 ->
  exists m e, float64_of_int h = S754_finite false m e /\
    2 ^ 52 <= Zpos m < 2 ^ 53 /\ -52 <= e <= 0 /\ Zpos m = h * 2 ^ (- e).
Proof.
  intros Hh. destruct h as [|p|p]; try lia.
  unfold float64_of_int, binary_normalize, binary_round.
  pose proof (Z.log2_spec (Zpos p) ltac:(lia)) as Hlog.
  pose proof (Z.log2_nonneg (Zpos p)) as Hnn.
  assert (Z.log2 (Zpos p) < 53) as Hlt by (apply Z.log2_lt_pow2; lia).
  rewrite digits2_log2. 
  remember (Z.log2 (Zpos p) + 1) as d eqn:Hd.
  replace (Z.log2 (Zpos p)) with (d - 1) in Hlog by lia.
  replace (Z.succ (d - 1)) with d in Hlog by lia.
  replace (fexp 53 1024 (d + 0)) with (d - 53) by (unfold fexp, emin; lia).
  unfold shl_align.
  destruct (d - 53 - 0) as [|k|k] eqn:Hk; try lia.
  - assert (d = 53) as -> by lia. change (53 - 1) with 52 in Hlog.
    rewrite binary_round_aux_53 by lia.
    exists p, 0. change (2 ^ (- 0)) with 1.
    split; [reflexivity|]. split; [lia|]. split; lia.
  - assert (Zpos (Pos.iter xO p k) = Zpos p * 2 ^ (53 - d)) as Hshift.
    { rewrite iter_xO. f_equal. f_equal. lia. }
    assert (2 ^ 52 <= Zpos (Pos.iter xO p k) < 2 ^ 53) as Hm.
    { rewrite Hshift.
      replace (2 ^ 52) with (2 ^ (d - 1) * 2 ^ (53 - d))
        by (rewrite <- Z.pow_add_r by lia; f_equal; lia).
      replace (2 ^ 53) with (2 ^ d * 2 ^ (53 - d))
        by (rewrite <- Z.pow_add_r by lia; f_equal; lia).
      assert (0 < 2 ^ (53 - d)) by (apply Z.pow_pos_nonneg; lia).
      nia. }
    rewrite binary_round_aux_53 by lia.
    exists (Pos.iter xO p k), (d - 53). 
    split; [reflexivity|]. split; [exact Hm|]. split; [lia|].
    rewrite Hshift. f_equal. f_equal. lia.
Qed.

Lemma hundred : float64_of_int 100 = S754_finite false 7036874417766400 (-46).
Proof. reflexivity. Qed.

Lemma rne_cases mx l :
  round_nearest_even mx l = mx \/ round_nearest_even mx l = mx + 1.
Proof. destruct l as [|[]]; simpl; auto. destruct (Z.even mx); auto. Qed.

Lemma finish m1 e :
  2 ^ 52 <= m1 <= 2 ^ 53 -> -1074 <= e <= -2 ->
  int_of_float
    (let '(mrs'', e'') := shr_fexp 53 1024 m1 e loc_Exact in
     match shr_m mrs'' with
     | 0 => S754_zero false
     | Zpos m =>
         if e'' <=? 1024 - 53 then S754_finite false m e''
         else S754_infinity false
     | Zneg _ => S754_nan
     end) = m1 / 2 ^ (- e).
Proof.
  intros Hm He. destruct (Z.eq_dec m1 (2 ^ 53)) as [->|Hne].
  - unfold shr_fexp. change (2 ^ 53) with 9007199254740992.
    change (Zdigits2 9007199254740992) with 54.
    replace (fexp 53 1024 (54 + e) - e) with 1 by (unfold fexp, emin; lia).
    cbv [shr SpecFloat.iter_pos shr_1 shr_record_of_loc shr_m orb].
    replace (e + 1 <=? 1024 - 53) with true by (symmetry; apply Z.leb_le; lia).
    unfold int_of_float.
    replace (0 <=? e + 1) with false by (symmetry; apply Z.leb_gt; lia).
    replace (2 ^ (- e)) with (2 * 2 ^ (- (e + 1))).
    + change 9007199254740992 with (2 * 4503599627370496).
      rewrite Z.div_mul_cancel_l; [reflexivity| |lia].
      apply Z.pow_nonzero; lia.
    + rewrite <- Z.pow_succ_r by lia. f_equal. lia.
  - destruct m1 as [|p|p]; try lia.
    rewrite shr_fexp_53 by lia. cbv beta iota.
    rewrite shr_m_record_of_loc.
    replace (e <=? 1024 - 53) with true by (symmetry; apply Z.leb_le; lia).
    unfold int_of_float.
    replace (0 <=? e) with false by (symmetry; apply Z.leb_gt; lia).
    reflexivity.
Qed.

Lemma shr_1_record p l :
  exists s, shr_1 (shr_record_of_loc (Zpos p) l) =
    {| shr_m := Zpos p / 2; shr_r := Z.odd (Zpos p); shr_s := s |}.
Proof.
  assert (forall z, z / 2 = Z.div2 z) as Hdiv2
    by (intros z; rewrite Z.div2_div; reflexivity).
  rewrite Hdiv2.
  destruct l as [|[]]; destruct p as [p|p|]; simpl; eauto.
Qed.

Lemma rne_record m r s :
  round_nearest_even m
    (loc_of_shr_record {| shr_m := m; shr_r := r; shr_s := s |}) = m \/
  (round_nearest_even m
     (loc_of_shr_record {| shr_m := m; shr_r := r; shr_s := s |}) = m + 1 /\
   r = true).
Proof.
  destruct r, s; simpl; auto. destruct (Z.even m); auto.
Qed.

Lemma divide_by_100 m e :
  2 ^ 52 <= Zpos m < 2 ^ 53 -> -52 <= e <= 0 ->
  exists m1 g,
    int_of_float (true_divide (S754_finite false m e) (float64_of_int 100))
      = m1 / 2 ^ g /\
    let q := (Zpos m * 128) / 100 in
    ((g = 7 - e /\ q <= m1 <= q + 1) \/
     (g = 6 - e /\ (m1 = q / 2 \/ (m1 = q / 2 + 1 /\ Z.odd q = true)))).
Proof.
  intros Hm He. rewrite hundred. unfold true_divide, SFdiv, SFdiv_core_binary.
  cbv zeta. unfold Zdigits2. rewrite (digits2_bits m 53) by lia.
  change (Zpos (digits2_pos 7036874417766400)) with 53.
  replace (Z.min (fexp 53 1024 (53 + e - (53 + -46))) (e - -46)) with (e - 7)
    by (unfold fexp, emin; lia).
  replace (e - -46 - (e - 7)) with 53 by lia.
  cbv iota. rewrite Z.shiftl_mul_pow2 by lia.
  destruct (IntDef.Z.div_eucl (Z.pos m * 2 ^ 53) 7036874417766400)
    as [q r] eqn:Hdiv.
  assert (q = Z.pos m * 128 / 100) as Hq.
  { apply (f_equal fst) in Hdiv.
    change (fst (IntDef.Z.div_eucl (Z.pos m * 2 ^ 53) 7036874417766400))
      with ((Z.pos m * 2 ^ 53) / 7036874417766400) in Hdiv.
    simpl fst in Hdiv. rewrite <- Hdiv.
    change (2 ^ 53) with (128 * 70368744177664).
    change 7036874417766400 with (100 * 70368744177664).
    rewrite Z.mul_assoc. apply Z.div_mul_cancel_r; lia. }
  clear Hdiv. cbv iota beta. change (xorb false false) with false.
  generalize (new_location 7036874417766400 r). intros l. clear r.
  assert (2 ^ 52 <= q < 2 ^ 54) as Hqb.
  { rewrite Hq. split.
    - apply Z.div_le_lower_bound; lia.
    - apply Z.div_lt_upper_bound; lia. }
  unfold binary_round_aux.
  destruct (Z_lt_le_dec q (2 ^ 53)) as [Hsmall|Hbig].
  - destruct q as [|p|p]; try lia.
    rewrite shr_fexp_53 by lia. cbv beta iota.
    rewrite loc_of_shr_record_of_loc, shr_m_record_of_loc.
    pose proof (rne_cases (Zpos p) l) as Hrne.
    set (m1 := round_nearest_even (Zpos p) l) in *.
    rewrite finish by lia.
    exists m1, (7 - e). split; [f_equal; f_equal; lia|].
    left. rewrite <- Hq. lia.
  - destruct q as [|p|p]; try lia.
    unfold shr_fexp at 1. unfold Zdigits2.
    rewrite (digits2_bits p 54) by lia.
    replace (fexp 53 1024 (54 + (e - 7)) - (e - 7)) with 1
      by (unfold fexp, emin; lia).
    cbv [shr SpecFloat.iter_pos].
    destruct (shr_1_record p l) as [s ->]. cbv beta iota. cbv [shr_m].
    pose proof (rne_record (Zpos p / 2) (Z.odd (Zpos p)) s) as Hrne.
    set (m1 := round_nearest_even _ _) in *.
    assert (2 ^ 52 <= Zpos p / 2 < 2 ^ 53) as Hhalf.
    { split; [apply Z.div_le_lower_bound|apply Z.div_lt_upper_bound]; lia. }
    rewrite finish by lia.
    exists m1, (6 - e). split; [f_equal; f_equal; lia|].
    right. rewrite <- Hq. split; [reflexivity|]. tauto.
Qed.

Lemma bucket_floor h :
  0 <= h < 2 ^ 53 ->
  int_of_float (true_divide (float64_of_int h) (float64_of_int 100)) = h / 100.
Proof.
  intros Hh. destruct (Z.eq_dec h 0) as [->|Hne]; [reflexivity|].
  destruct (float64_of_int_pos h ltac:(lia)) as (m & e & -> & Hm & He & Hmh).
  destruct (divide_by_100 m e Hm He) as (m1 & g & -> & Hcases).
  cbv zeta in Hcases.
  set (a := 2 ^ (- e)) in *.
  assert (1 <= a) as Ha.
  { unfold a. change 1 with (2 ^ 0). apply Z.pow_le_mono_r; lia. }
  set (q := Z.pos m * 128 / 100) in *.
  assert (100 * q <= Z.pos m * 128 < 100 * q + 100) as Hq.
  { unfold q. pose proof (Z.mul_div_le (Z.pos m * 128) 100 ltac:(lia)).
    pose proof (Z.mul_succ_div_gt (Z.pos m * 128) 100 ltac:(lia)). lia. }
  pose proof (Z.div_mod h 100 ltac:(lia)) as Hdm.
  pose proof (Z.mod_pos_bound h 100 ltac:(lia)) as Hr.
  set (k := h / 100) in *. set (r := h mod 100) in *.
  destruct Hcases as [[-> Hm1]|[-> Hm1]].
  - replace (2 ^ (7 - e)) with (128 * a)
      by (unfold a; change 128 with (2 ^ 7); rewrite <- Z.pow_add_r by lia;
          f_equal; lia).
    symmetry. apply (Z.div_unique m1 (128 * a) k (m1 - 128 * a * k)); nia.
  - replace (2 ^ (6 - e)) with (64 * a)
      by (unfold a; change 64 with (2 ^ 6); rewrite <- Z.pow_add_r by lia;
          f_equal; lia).
    pose proof (Z.div_mod q 2 ltac:(lia)) as Hq2.
    pose proof (Z.mod_pos_bound q 2 ltac:(lia)) as Hq2r.
    assert (Z.odd q = true -> q mod 2 = 1) as Hodd.
    { intros Ho. rewrite Zmod_odd, Ho. reflexivity. }
    symmetry. apply (Z.div_unique m1 (64 * a) k (m1 - 64 * a * k)); [|lia].
    destruct Hm1 as [->|[-> Ho]]; [nia|]. specialize (Hodd Ho). nia.
Qed.

(** * The properties of the specification *)

#[local] Existing Instance Demo.lib.

(** C1 as stated fails: the bucket is the truncated float64 quotient,
    and for a healpix of seventeen digits that quotient is rounded up to
    the next integer. *)
Lemma partition_path_counterexample :
  0 ≤ 99999999999999999 ∧
  Z.div 99999999999999999 100 = 999999999999999 ∧
  file_coadd "main" "dark" 99999999999999999 =
    "/data/desi/healpix/main/dark/1000000000000000/99999999999999999/coadd-main-dark-99999999999999999.fits" ∧
  file_coadd "main" "dark" 99999999999999999 ≠
    "/data/desi/healpix/main/dark/999999999999999/99999999999999999/coadd-main-dark-99999999999999999.fits".
Proof.
  split; [lia|]. split; [reflexivity|]. split; [reflexivity|].
  vm_compute. discriminate.
Qed.

(** C1, amended.  The path of the coadd file of a catalog row is a
    function of its [survey], [program] and [healpix] alone (it takes no
    process state, so it reads nothing and checks nothing): for a
    healpix from 0 to below 2^53, which every value of a 32-bit column
    is, it is
    [{root}/{survey}/{program}/{bucket}/{healpix}/coadd-{survey}-{program}-{healpix}.fits]
    with [bucket = floor(healpix / 100)].  Whether the file exists shows
    only when the fibermap is read from that path. *)
Theorem partition_path_template `{Library} (row : Row) :
  0 ≤ HEALPIX row < 2 ^ 53 →
  let root := "/data/desi/healpix" in
  let bucket := Z.div (HEALPIX row) 100 in
  let path :=
    root +:+ "/" +:+ SURVEY row +:+ "/" +:+ PROGRAM row +:+ "/" +:+
    str_int bucket +:+ "/" +:+ str_int (HEALPIX row) +:+ "/coadd-" +:+
    SURVEY row +:+ "-" +:+ PROGRAM row +:+ "-" +:+ str_int (HEALPIX row) +:+
    ".fits" in
  file_coadd (SURVEY row) (PROGRAM row) (HEALPIX row) = path ∧
  ∀ zall targetid w,
    loc zall targetid = Returns (LocRow row) →
    disk w !! path = None →
    locate zall targetid w = (Raises (FileNotFoundError path), w).
Proof.
  intros Hrange root bucket path.
  assert (file_coadd (SURVEY row) (PROGRAM row) (HEALPIX row) = path) as Hpath.
  { unfold file_coadd, path, bucket, root. cbv zeta.
    by rewrite (bucket_floor _ Hrange). }
  split; [done|]. intros zall targetid w Hloc Hdisk.
  rewrite <- Hpath in *. by apply locate_missing_file.
Qed.

(** healpix 12345 lies in bucket 123. *)
Lemma partition_path_template_witness :
  Z.div 12345 100 = 123 ∧
  file_coadd "sv1" "bright" 12345 =
    "/data/desi/healpix/sv1/bright/123/12345/coadd-sv1-bright-12345.fits".
Proof.
  split; [reflexivity|].
  assert (0 ≤ HEALPIX Demo.row_u16 < 2 ^ 53) as Hrange by (simpl; lia).
  exact (proj1 (partition_path_template Demo.row_u16 Hrange)).
Defined.

(** C2. For an identifier that no catalog row carries, both handlers
    raise the 404 response (with the text of the catalog's [KeyError]),
    whatever [filter] the CSV request names; neither raises the 500
    response. *)
Theorem unknown_identifier_not_found `{Library} targetid filter w zall :
  payload w !! "zall" = Some zall →
  Forall (λ r, TARGETID r ≠ targetid) zall →
  (get_coadd_spectrum_json targetid w).1 =
    Raises (HTTPException 404
      ("TARGETID not found in `zall-pix-fuji` table. " +:+
       exc_str (KeyError (NoMatches targetid)))) ∧
  (coadd_csv targetid filter w).1 =
    Raises (HTTPException 404 (exc_str (KeyError (NoMatches targetid)))).
Proof.
  intros Hzall Habs. split.
  - by apply json_absent with zall.
  - by apply csv_absent with zall.
Qed.

Lemma unknown_identifier_not_found_witness :
  (get_coadd_spectrum_json 42 Demo.world).1 =
    Raises (HTTPException 404
      "TARGETID not found in `zall-pix-fuji` table. 'No matches found for key 42'") ∧
  (coadd_csv 42 (Some "B") Demo.world).1 =
    Raises (HTTPException 404 "'No matches found for key 42'").
Proof.
  assert (Forall (λ r, TARGETID r ≠ 42) Demo.zall) as Habs
    by (repeat constructor; simpl; unfold Demo.targetid; lia).
  exact (unknown_identifier_not_found 42 (Some "B") Demo.world Demo.zall
           eq_refl Habs).
Defined.

(** C3. When the catalog has the identifier and the coadd file is there,
    but the [TARGETID] column of its [FIBERMAP] has no entry equal to
    the identifier, the request fails: the handler raises the 500
    response with the text of the [IndexError].  No request for an
    identifier absent from the catalog has this outcome. *)
Theorem missing_fibermap_row_fails `{Library} targetid w zall row hdul rec ids :
  payload w !! "zall" = Some zall →
  loc zall targetid = Returns (LocRow row) →
  disk w !! file_coadd (SURVEY row) (PROGRAM row) (HEALPIX row) = Some hdul →
  hdul_getitem hdul "FIBERMAP" = Returns (BinTableHDU rec) →
  rec_field rec "TARGETID" = Returns ids →
  Forall (λ c, np_eq c targetid = false) ids →
  (get_coadd_spectrum_json targetid w).1 =
    Raises (HTTPException 500
      ("Internal Server Error: " +:+ exc_str IndexError)) ∧
  ∀ w' zall' targetid',
    payload w' !! "zall" = Some zall' →
    Forall (λ r, TARGETID r ≠ targetid') zall' →
    (get_coadd_spectrum_json targetid' w').1 ≠
    (get_coadd_spectrum_json targetid w).1.
Proof.
  intros Hzall Hloc Hdisk Hfm Hids Hnone.
  assert ((get_coadd_spectrum_json targetid w).1 =
          Raises (HTTPException 500
            ("Internal Server Error: " +:+ exc_str IndexError))) as Hfail.
  { rewrite (json_run _ _ _ Hzall), (json_body_found _ _ _ _ _ Hloc Hdisk).
    rewrite Hfm. unfold mbind at 1. unfold outcome_bind at 1.
    rewrite (row_index_none _ _ _ Hids Hnone). reflexivity. }
  split; [done|].
  intros w' zall' targetid' Hzall' Habs.
  rewrite Hfail, (json_absent _ _ _ Hzall' Habs). congruence.
Qed.

Lemma missing_fibermap_row_fails_witness :
  (get_coadd_spectrum_json Demo.targetid (Demo.world_of Demo.coadd_drift)).1 =
    Raises (HTTPException 500
      "Internal Server Error: index 0 is out of bounds for axis 0 with size 0") ∧
  (get_coadd_spectrum_json 42 Demo.world).1 ≠
  (get_coadd_spectrum_json Demo.targetid (Demo.world_of Demo.coadd_drift)).1.
Proof.
  assert (Forall (λ c, Demo.int_eq c Demo.targetid = false)
            [Demo.id64 39633345008634000; Demo.id64 39633345008634001])
    as Hnone by (repeat constructor).
  assert (Forall (λ r, TARGETID r ≠ 42) Demo.zall) as Habs
    by (repeat constructor; simpl; unfold Demo.targetid; lia).
  pose proof (missing_fibermap_row_fails Demo.targetid
                (Demo.world_of Demo.coadd_drift) Demo.zall Demo.row
                Demo.coadd_drift _ _ eq_refl eq_refl eq_refl eq_refl eq_refl
                Hnone) as [Hfail Hdistinct].
  split; [exact Hfail|].
  exact (Hdistinct Demo.world Demo.zall 42 eq_refl Habs).
Defined.

(** C4. When the [TARGETID] column of the fibermap has an entry equal
    to the identifier, the row found is the first such entry: the entry
    at that offset equals the identifier and none before it does.  The
    offset depends on that column alone. *)
Theorem row_index_first_match `{Library} (rec : BinTable) ids targetid :
  rec_field rec "TARGETID" = Returns ids →
  Exists (λ c, np_eq c targetid = true) ids →
  ∃ ispec : nat,
    row_index (BinTableHDU rec) targetid = Returns ispec ∧
    (∃ c, ids !! ispec = Some c ∧ np_eq c targetid = true) ∧
    (∀ (j : nat) c, (j < ispec)%nat → ids !! j = Some c →
                    np_eq c targetid = false) ∧
    (∀ rec' : BinTable, rec_field rec' "TARGETID" = Returns ids →
       row_index (BinTableHDU rec') targetid = Returns ispec).
Proof.
  intros Hids Hex.
  pose proof (argwhere_from_head 0 (map (λ c, np_eq c targetid) ids)) as Hhead.
  destruct (argwhere_from 0 (map (λ c, np_eq c targetid) ids))
    as [|k ks] eqn:Hargs.
  - exfalso. apply Exists_exists in Hex as (c & Hc & Heq).
    rewrite Forall_forall in Hhead.
    rewrite (Hhead (np_eq c targetid)) in Heq; [done|].
    apply list_elem_of_In, (in_map (λ c, np_eq c targetid)).
    by apply list_elem_of_In.
  - destruct Hhead as (n & -> & Hn & Hbefore). exists n.
    assert (∀ rec' : BinTable, rec_field rec' "TARGETID" = Returns ids →
              row_index (BinTableHDU rec') targetid = Returns n) as Hrec.
    { intros rec' Hids'. unfold row_index, mbind, outcome_bind.
      rewrite (rec_getitem_targetid _ _ Hids'). unfold argwhere.
      by rewrite Hargs. }
    split; [by apply Hrec|]. split; [|split; [|done]].
    + rewrite lookup_map in Hn.
      destruct (ids !! n) as [c|]; [|done]. injection Hn as Hn. eauto.
    + intros j c Hj Hc. specialize (Hbefore j Hj).
      rewrite lookup_map, Hc in Hbefore. by injection Hbefore.
Qed.

Lemma row_index_first_match_witness :
  ∃ ispec : nat,
    row_index Demo.fibermap Demo.targetid = Returns ispec ∧
    (∃ c, [Demo.id64 39633345008634000; Demo.id64 39633345008634311;
           Demo.id64 39633345008634311] !! ispec = Some c ∧
          Demo.int_eq c Demo.targetid = true).
Proof.
  assert (Exists (λ c, Demo.int_eq c Demo.targetid = true)
            [Demo.id64 39633345008634000; Demo.id64 39633345008634311;
             Demo.id64 39633345008634311]) as Hex
    by (apply Exists_cons_tl, Exists_cons_hd; reflexivity).
  destruct (row_index_first_match (H := Demo.lib)
              [("TARGETID", [Demo.id64 39633345008634000;
                             Demo.id64 39633345008634311;
                             Demo.id64 39633345008634311]);
               ("FIBER", [NpScalar (NpInt int32 12); NpScalar (NpInt int32 13);
                          NpScalar (NpInt int32 14)])]
              _ Demo.targetid eq_refl Hex)
    as (ispec & Hidx & Hat & _).
  exists ispec. split; [exact Hidx | exact Hat].
Defined.

(** The first of two fibermap rows with the identifier is the one read. *)
Example row_index_demo : row_index Demo.fibermap Demo.targetid = Returns 1%nat.
Proof. reflexivity. Qed.

(** On the small catalog the JSON request returns a document of plain
    values, and the CSV request with no arm prints and reads arm R. *)
Example json_demo :
  ∃ info scores data,
    (get_coadd_spectrum_json Demo.targetid Demo.world).1 =
      Returns (PyDict [("zall_pix_info", PyDict info);
                       ("scores", PyDict scores);
                       ("data", PyDict data)]) ∧
    dict_get scores "TSNR2_LRG" = Some (PyFloat Demo.one) ∧
    dict_get data "r_flux" =
      Some (PyList [PyFloat Demo.one; PyFloat Demo.one; PyFloat Demo.one]) ∧
    plain (PyDict info) && plain (PyDict scores) && plain (PyDict data) = true.
Proof. do 3 eexists. split; [vm_compute; reflexivity|]. by vm_compute. Qed.

Example csv_demo :
  (coadd_csv Demo.targetid None Demo.world).1 =
    Returns {| content := "wavelength,flux,ivar,mask";
               media_type := "text/csv" |} ∧
  stdout (coadd_csv Demo.targetid None Demo.world).2 = ["R"].
Proof. split; reflexivity. Qed.

Section Documents.
Context `{Library}.

Lemma json_except_status e :
  ∃ status detail,
    json_except e = HTTPException status detail ∧ (status = 404 ∨ status = 500).
Proof. destruct e; simpl; eauto. Qed.

(** A body that returns has found one catalog row and its file. *)
Lemma json_body_returns zall targetid w output :
  (json_body zall targetid w).1 = Returns output →
  ∃ row hdul,
    loc zall targetid = Returns (LocRow row) ∧
    disk w !! file_coadd (SURVEY row) (PROGRAM row) (HEALPIX row) = Some hdul.
Proof.
  unfold json_body. unfold mbind at 1. unfold py_bind.
  destruct (locate zall targetid w) as [[[[row path] ispec]|e] w'] eqn:Hlocate;
    [intros _|done].
  revert Hlocate.
  unfold locate, getdata, fits_open, lift, mbind, mret, py_bind, py_ret.
  destruct (loc zall targetid) as [[r|rows]|e]; simpl; [|done|done].
  destruct (disk w !! file_coadd (SURVEY r) (PROGRAM r) (HEALPIX r))
    as [hdul|] eqn:Hdisk; [|done].
  destruct (hdul_getitem hdul "FIBERMAP") as [fibermap|]; [|done].
  destruct (row_index fibermap targetid); [|done].
  intros [= <- _ _ _]. eauto.
Qed.

End Documents.

Lemma rec_field_is_Returns (rec : BinTable) key :
  key ∈ rec.*1 → ∃ col, rec_field rec key = Returns col.
Proof.
  induction rec as [|[k c] rec IH]; csimpl; [by intros ?%elem_of_nil|].
  intros Hin. destruct (String.eqb_spec k key) as [->|Hne]; [eauto|].
  apply elem_of_cons in Hin as [?|Hin]; [congruence | auto].
Qed.

(** The loop of [rec2dict] fails only on a column too short for the
    row, and then with [IndexError]. *)
Lemma rec2dict_loop_range (rec : BinTable) ispec keys (d : dict) :
  (∀ key, key ∈ keys → ∃ col, rec_field rec key = Returns col) →
  match rec2dict_loop rec ispec keys d with
  | Returns _ =>
      ∀ key col, key ∈ keys → rec_field rec key = Returns col →
                 is_Some (col !! ispec)
  | Raises e =>
      e = IndexError ∧
      ∃ key col, key ∈ keys ∧ rec_field rec key = Returns col ∧
                 col !! ispec = None
  end.
Proof.
  revert d. induction keys as [|k keys IH]; intros d Hcols; simpl.
  - by intros key col ?%elem_of_nil.
  - destruct (Hcols k) as [c Hk]; [apply elem_of_cons; by left|].
    unfold mbind, outcome_bind, getitem. rewrite Hk.
    destruct (c !! ispec) as [v|] eqn:Hv.
    + assert (∀ key, key ∈ keys → ∃ col, rec_field rec key = Returns col)
        as Hcols' by (intros ??; apply Hcols, elem_of_cons; by right).
      specialize (IH (dict_set d k (convert v)) Hcols').
      destruct (rec2dict_loop rec ispec keys (dict_set d k (convert v))).
      * intros key col Hin Hcol. apply elem_of_cons in Hin as [->|Hin].
        -- rewrite Hk in Hcol. injection Hcol as <-. by rewrite Hv.
        -- by apply (IH key col).
      * destruct IH as (-> & key & col & Hin & Hcol & Hnone).
        split; [done|]. exists key, col. split; [|done].
        apply elem_of_cons. by right.
    + split; [done|]. exists k, c. split; [|done]. apply elem_of_cons. by left.
Qed.

(** A dictionary [rec2dict] returns holds every column, at the row. *)
Lemma rec2dict_fields (rec : BinTable) ispec (d : dict) key col :
  rec2dict rec ispec = Returns d →
  rec_field rec key = Returns col →
  ∃ value, col !! ispec = Some value ∧ dict_get d key = Some (convert value).
Proof.
  intros Hd Hcol.
  pose proof (rec2dict_loop_range rec ispec rec.*1 []
                (rec_field_is_Returns rec)) as Hrange.
  unfold rec2dict in Hd. rewrite Hd in Hrange.
  destruct (Hrange key col (rec_field_key _ _ _ Hcol) Hcol) as [value Hv].
  exists value. split; [done|]. by eapply rec2dict_converts.
Qed.

Section Returned.
Context `{Library}.

Lemma loc_row (zall : Table) targetid row :
  loc zall targetid = Returns (LocRow row) →
  filter (λ r, TARGETID r = targetid) zall = [row] ∧
  row ∈ zall ∧ TARGETID row = targetid.
Proof.
  unfold loc.
  destruct (filter (λ r, TARGETID r = targetid) zall) as [|r [|r' rows]] eqn:Hf;
    [done| |done].
  intros [= ->]. split; [done|].
  assert (row ∈ filter (λ r, TARGETID r = targetid) zall) as Hin
    by (rewrite Hf; apply elem_of_cons; by left).
  by apply list_elem_of_filter in Hin as [? ?].
Qed.

Lemma read_arm_reads hdul ispec arm key (data data' : dict) :
  read_arm hdul ispec arm key data = Returns data' →
  ∃ wavelength flux ivar mask,
    data_tolist hdul (arm +:+ "_WAVELENGTH") = Returns wavelength ∧
    section hdul (arm +:+ "_FLUX") ispec = Returns flux ∧
    section hdul (arm +:+ "_IVAR") ispec = Returns ivar ∧
    section hdul (arm +:+ "_MASK") ispec = Returns mask ∧
    data' = dict_set (dict_set (dict_set (dict_set data
              (key +:+ "_wavelength") wavelength)
              (key +:+ "_flux") (tolist flux))
              (key +:+ "_ivar") (tolist ivar))
              (key +:+ "_mask") (tolist mask).
Proof.
  unfold read_arm, mbind, mret, outcome_bind, outcome_ret.
  destruct (data_tolist _ _) as [wavelength|]; [|done].
  destruct (section hdul (arm +:+ "_FLUX") ispec) as [flux|]; [|done].
  destruct (section hdul (arm +:+ "_IVAR") ispec) as [ivar|]; [|done].
  destruct (section hdul (arm +:+ "_MASK") ispec) as [mask|]; [|done].
  intros [= <-]. eauto 10.
Qed.

(** Every step a returned document went through. *)
Lemma json_returns_inv targetid w output :
  (get_coadd_spectrum_json targetid w).1 = Returns output →
  ∃ zall row hdul fibermap ispec rec scores b r z,
    payload w !! "zall" = Some zall ∧
    loc zall targetid = Returns (LocRow row) ∧
    disk w !! file_coadd (SURVEY row) (PROGRAM row) (HEALPIX row)
      = Some hdul ∧
    hdul_getitem hdul "FIBERMAP" = Returns fibermap ∧
    row_index fibermap targetid = Returns ispec ∧
    hdul_getitem hdul "SCORES" = Returns (BinTableHDU rec) ∧
    rec2dict rec ispec = Returns scores ∧
    read_arm hdul ispec "B" "b" [] = Returns b ∧
    read_arm hdul ispec "R" "r" b = Returns r ∧
    read_arm hdul ispec "Z" "z" r = Returns z ∧
    output = PyDict [("zall_pix_info", PyDict (row2dict row));
                     ("scores", PyDict scores);
                     ("data", PyDict z)].
Proof.
  destruct (payload w !! "zall") as [zall|] eqn:Hzall.
  2:{ unfold get_coadd_spectrum_json, mbind, py_bind, payload_getitem.
      by rewrite Hzall. }
  rewrite (json_run _ _ _ Hzall). simpl.
  destruct ((json_body zall targetid w).1) as [out|e] eqn:Hbody; [|done].
  intros [= ->].
  destruct (json_body_returns _ _ _ _ Hbody) as (row & hdul & Hloc & Hdisk).
  rewrite (json_body_found _ _ _ _ _ Hloc Hdisk) in Hbody.
  revert Hbody. unfold mbind, mret, outcome_bind, outcome_ret.
  destruct (hdul_getitem hdul "FIBERMAP") as [fibermap|] eqn:Hfm; [|done].
  destruct (row_index fibermap targetid) as [ispec|] eqn:Hidx; [|done].
  destruct (hdul_getitem hdul "SCORES") as [[rec|img]|] eqn:Hsc; [|done|done].
  destruct (rec2dict rec ispec) as [scores|] eqn:Hscores; [|done].
  destruct (read_arm hdul ispec "B" "b" []) as [b|] eqn:Hb; [|done].
  destruct (read_arm hdul ispec "R" "r" b) as [r|] eqn:Hr; [|done].
  destruct (read_arm hdul ispec "Z" "z" r) as [z|] eqn:Hz; [|done].
  intros [= <-].
  exists zall, row, hdul, fibermap, ispec, rec, scores, b, r, z.
  repeat (split; [done|]). done.
Qed.

(** The offset found is that of the first entry of the [TARGETID]
    column that equals the identifier. *)
Lemma row_index_inv fibermap targetid ispec :
  row_index fibermap targetid = Returns ispec →
  ∃ rec ids,
    fibermap = BinTableHDU rec ∧
    rec_getitem rec "TARGETID" = Returns ids ∧
    (∃ c, ids !! ispec = Some c ∧ np_eq c targetid = true) ∧
    (∀ (j : nat) c, (j < ispec)%nat → ids !! j = Some c →
                    np_eq c targetid = false).
Proof.
  destruct fibermap as [rec|items]; [|done].
  unfold row_index, mbind, outcome_bind.
  destruct (rec_getitem rec "TARGETID") as [ids|] eqn:Hids; [|done].
  unfold argwhere.
  pose proof (argwhere_from_head 0 (map (λ c, np_eq c targetid) ids)) as Hhead.
  destruct (argwhere_from 0 (map (λ c, np_eq c targetid) ids)) as [|k ks];
    [done|].
  destruct Hhead as (n & -> & Hn & Hbefore). intros [= <-].
  exists rec, ids. split; [done|]. split; [done|]. split.
  - rewrite lookup_map in Hn.
    destruct (ids !! n) as [c|]; [|done]. injection Hn as Hn. eauto.
  - intros j c Hj Hc. specialize (Hbefore j Hj).
    rewrite lookup_map, Hc in Hbefore. by injection Hbefore.
Qed.

Lemma data_tolist_inv hdul name value :
  data_tolist hdul name = Returns value →
  ∃ hdu,
    hdul_getitem hdul name = Returns hdu ∧
    value = match hdu with
            | ImageHDU items => PyList (map tolist items)
            | BinTableHDU rec => rec_tolist rec
            end.
Proof.
  unfold data_tolist, mbind, outcome_bind.
  destruct (hdul_getitem hdul name) as [[rec|items]|]; [| |done];
    intros [= <-]; eauto.
Qed.

Lemma section_inv hdul name ispec a :
  section hdul name ispec = Returns a →
  ∃ items,
    hdul_getitem hdul name = Returns (ImageHDU items) ∧
    items !! ispec = Some a.
Proof.
  unfold section, mbind, outcome_bind, getitem.
  destruct (hdul_getitem hdul name) as [[rec|items]|]; [done| |done].
  destruct (items !! ispec) as [a'|] eqn:Ha; [|done].
  intros [= <-]. eauto.
Qed.

(** What one arm puts in [data], down to the HDUs it is read from. *)
Lemma read_arm_inv hdul ispec arm key (data data' : dict) :
  read_arm hdul ispec arm key data = Returns data' →
  ∃ grid flux ivar mask f i m,
    hdul_getitem hdul (arm +:+ "_WAVELENGTH") = Returns grid ∧
    hdul_getitem hdul (arm +:+ "_FLUX") = Returns (ImageHDU flux) ∧
    hdul_getitem hdul (arm +:+ "_IVAR") = Returns (ImageHDU ivar) ∧
    hdul_getitem hdul (arm +:+ "_MASK") = Returns (ImageHDU mask) ∧
    flux !! ispec = Some f ∧ ivar !! ispec = Some i ∧ mask !! ispec = Some m ∧
    data' = dict_set (dict_set (dict_set (dict_set data
              (key +:+ "_wavelength")
              match grid with
              | ImageHDU items => PyList (map tolist items)
              | BinTableHDU rec => rec_tolist rec
              end)
              (key +:+ "_flux") (tolist f))
              (key +:+ "_ivar") (tolist i))
              (key +:+ "_mask") (tolist m).
Proof.
  intros Hread.
  apply read_arm_reads in Hread as (w & f & i & m & Hw & Hf & Hi & Hm & ->).
  apply data_tolist_inv in Hw as (grid & Hgrid & ->).
  apply section_inv in Hf as (flux & ? & ?).
  apply section_inv in Hi as (ivar & ? & ?).
  apply section_inv in Hm as (mask & ? & ?).
  exists grid, flux, ivar, mask, f, i, m. by repeat (split; [done|]).
Qed.

End Returned.

(** C5. The JSON handler returns a whole document or raises one
    exception.  A returned document has the three sections, each read
    for the requested object: [zall_pix_info] holds every field of the
    one catalog row with the identifier, converted; [scores] holds every
    column of the [SCORES] table of the row's file at the offset
    [ispec], converted, where [ispec] is the first offset at which the
    [TARGETID] column of the file's fibermap equals the identifier; and
    [data] has the twelve keys of the three arms, the wavelength entry
    being the whole [<arm>_WAVELENGTH] array and the flux, ivar and mask
    entries row [ispec] of the arm's three images.  An exception is the
    404 or the 500 response (or, with no catalog loaded, the [KeyError]
    of the [payload] lookup).  In particular, for a catalog row whose
    file has no [SCORES] extension the handler raises a response and
    returns no document. *)
Theorem full_document_or_error `{Library} targetid w :
  match (get_coadd_spectrum_json targetid w).1 with
  | Returns output =>
      ∃ zall row hdul fibermap ids rec ispec scores (data : dict),
        payload w !! "zall" = Some zall ∧
        loc zall targetid = Returns (LocRow row) ∧
        disk w !! file_coadd (SURVEY row) (PROGRAM row) (HEALPIX row)
          = Some hdul ∧
        hdul_getitem hdul "FIBERMAP" = Returns (BinTableHDU fibermap) ∧
        rec_getitem fibermap "TARGETID" = Returns ids ∧
        row_index (BinTableHDU fibermap) targetid = Returns ispec ∧
        (∃ c, ids !! ispec = Some c ∧ np_eq c targetid = true) ∧
        (∀ (j : nat) c, (j < ispec)%nat → ids !! j = Some c →
                        np_eq c targetid = false) ∧
        hdul_getitem hdul "SCORES" = Returns (BinTableHDU rec) ∧
        rec2dict rec ispec = Returns scores ∧
        data.*1 = data_keys ∧
        output = PyDict [("zall_pix_info", PyDict (row2dict row));
                         ("scores", PyDict scores);
                         ("data", PyDict data)] ∧
        (∀ key value, row_getitem row key = Some value →
           dict_get (row2dict row) key = Some (convert value)) ∧
        (∀ key col, rec_field rec key = Returns col →
           ∃ value, col !! ispec = Some value ∧
                    dict_get scores key = Some (convert value)) ∧
        Forall (λ '(arm, key),
          ∃ grid flux ivar mask f i m,
            hdul_getitem hdul (arm +:+ "_WAVELENGTH") = Returns grid ∧
            hdul_getitem hdul (arm +:+ "_FLUX") = Returns (ImageHDU flux) ∧
            hdul_getitem hdul (arm +:+ "_IVAR") = Returns (ImageHDU ivar) ∧
            hdul_getitem hdul (arm +:+ "_MASK") = Returns (ImageHDU mask) ∧
            flux !! ispec = Some f ∧
            ivar !! ispec = Some i ∧
            mask !! ispec = Some m ∧
            dict_get data (key +:+ "_wavelength") =
              Some match grid with
                   | ImageHDU items => PyList (map tolist items)
                   | BinTableHDU table => rec_tolist table
                   end ∧
            dict_get data (key +:+ "_flux") = Some (tolist f) ∧
            dict_get data (key +:+ "_ivar") = Some (tolist i) ∧
            dict_get data (key +:+ "_mask") = Some (tolist m)) arm_names
  | Raises e =>
      (∃ status detail,
         e = HTTPException status detail ∧ (status = 404 ∨ status = 500)) ∨
      (e = KeyError (DictKey "zall") ∧ payload w !! "zall" = None)
  end ∧
  ∀ zall row hdul,
    payload w !! "zall" = Some zall →
    loc zall targetid = Returns (LocRow row) →
    disk w !! file_coadd (SURVEY row) (PROGRAM row) (HEALPIX row) = Some hdul →
    "SCORES" ∉ hdul.*1 →
    ∃ status detail,
      (get_coadd_spectrum_json targetid w).1 =
        Raises (HTTPException status detail).
Proof.
  split.
  - destruct ((get_coadd_spectrum_json targetid w).1) as [output|e] eqn:Hrun.
    + destruct (json_returns_inv _ _ _ Hrun)
        as (zall & row & hdul & fibermap & ispec & rec & scores & b & r & z &
            Hzall & Hloc & Hdisk & Hfm & Hidx & Hsc & Hscores &
            Hb & Hr & Hz & ->).
      destruct (row_index_inv _ _ _ Hidx)
        as (fm & ids & -> & Hids & Hat & Hbefore).
      exists zall, row, hdul, fm, ids, rec, ispec, scores, z.
      repeat (split; [done|]).
      split; [apply (read_arms_keys hdul ispec);
              unfold mbind, outcome_bind; by rewrite Hb, Hr|].
      split; [done|]. split; [|split].
      * intros key value Hrow. apply row2dict_loop_sets; [|done].
        by apply dict_get_key in Hrow.
      * intros key col. by apply rec2dict_fields.
      * apply read_arm_inv in Hb
          as (gb & fb & ib & mb & ? & ? & ? & ? & ? & ? & ? & ? & ? & ? & ->).
        apply read_arm_inv in Hr
          as (gr & fr & ir & mr & ? & ? & ? & ? & ? & ? & ? & ? & ? & ? & ->).
        apply read_arm_inv in Hz
          as (gz & fz & iz & mz & ? & ? & ? & ? & ? & ? & ? & ? & ? & ? & ->).
        repeat constructor.
        -- exists gb, fb, ib, mb. do 3 eexists. by repeat (split; [done|]).
        -- exists gr, fr, ir, mr. do 3 eexists. by repeat (split; [done|]).
        -- exists gz, fz, iz, mz. do 3 eexists. by repeat (split; [done|]).
    + destruct (payload w !! "zall") as [zall|] eqn:Hzall.
      * rewrite (json_run _ _ _ Hzall) in Hrun. simpl in Hrun.
        destruct ((json_body zall targetid w).1); [done|].
        injection Hrun as <-. left. apply json_except_status.
      * right. split; [|done]. revert Hrun.
        unfold get_coadd_spectrum_json, mbind, py_bind, payload_getitem.
        rewrite Hzall. by intros [= <-].
  - intros zall row hdul Hzall Hloc Hdisk Hmissing.
    rewrite (json_run _ _ _ Hzall). simpl.
    rewrite (json_body_found _ _ _ _ _ Hloc Hdisk).
    rewrite (hdul_getitem_missing hdul "SCORES" Hmissing).
    unfold mbind, outcome_bind.
    destruct (hdul_getitem hdul "FIBERMAP") as [fibermap|e];
      [destruct (row_index fibermap targetid) as [ispec|e]|];
      simpl; eauto;
      destruct (json_except_status e) as (status & detail & -> & _); eauto.
Qed.

Lemma full_document_or_error_witness :
  ∃ status detail,
    (get_coadd_spectrum_json Demo.targetid
       (Demo.world_of Demo.coadd_no_scores)).1 =
      Raises (HTTPException status detail).
Proof.
  assert ("SCORES" ∉ Demo.coadd_no_scores.*1) as Hmissing
    by (apply (bool_decide_unpack _); vm_compute; exact I).
  exact (proj2 (full_document_or_error Demo.targetid
                  (Demo.world_of Demo.coadd_no_scores))
           Demo.zall Demo.row Demo.coadd_no_scores
           eq_refl eq_refl eq_refl Hmissing).
Defined.




(** The arm is compared as the file compares names: the request for
    [r] reads arm [R]. *)
Example lower_case_arm :
  (get_coadd_spectrum_csv Demo.targetid "r" Demo.world).1 =
    (get_coadd_spectrum_csv Demo.targetid "R" Demo.world).1 ∧
  stdout (get_coadd_spectrum_csv Demo.targetid "r" Demo.world).2 = ["r"].
Proof. split; vm_compute; reflexivity. Qed.

(** C7. A CSV request that names no arm runs as the request for arm
    ["R"] does: same response or exception, same process state after. *)
Theorem default_arm_is_R `{Library} targetid w :
  coadd_csv targetid None w = coadd_csv targetid (Some "R") w ∧
  coadd_csv targetid None w = get_coadd_spectrum_csv targetid "R" w.
Proof. split; reflexivity. Qed.

(** C8 as stated fails: a column of 16-bit unsigned integers is a scalar
    numeric field, and [row2dict] hands its numpy scalar to the output as
    it is. *)
Lemma row2dict_counterexample :
  row_getitem Demo.row_u16 "NUMOBS" = Some (NpScalar (NpInt uint16 3)) ∧
  dict_get (row2dict Demo.row_u16) "NUMOBS" = Some (NpScalar (NpInt uint16 3)) ∧
  plain (NpScalar (NpInt uint16 3)) = false.
Proof. repeat split; reflexivity. Qed.

(** C8, amended.  For every field of a catalog row, [row2dict] stores
    under the field's name the converted value: [None] for the masked
    constant; for an array the nested list of its elements as Python
    numbers ([None] for masked elements), a plain value; for a numpy
    scalar of type int64, int32, int16, uint8, float64, float32 or bool_
    the Python [int], [float] or [bool] of the same value; and any
    other value, a numpy scalar of another type included, unchanged. *)
Theorem row2dict_converts (row : Row) key value :
  row_getitem row key = Some value →
  dict_get (row2dict row) key = Some (convert value) ∧
  match value with
  | NpMasked => convert value = PyNone
  | NpArray items =>
      convert value = PyList (map tolist items) ∧ plain (convert value) = true
  | NpScalar x =>
      if converted x
      then convert value = item x ∧ plain (convert value) = true
      else convert value = value
  | _ => convert value = value
  end.
Proof.
  intros Hrow. split.
  - apply row2dict_loop_sets; [|done]. by apply dict_get_key in Hrow.
  - destruct value as [| | | | | | | |x|items]; try done.
    + by destruct x as [[]|[]|].
    + split; [done|]. apply tolist_items_plain.
Qed.

Lemma row2dict_converts_witness :
  dict_get (row2dict Demo.row) "COEFF" =
    Some (PyList [PyFloat Demo.one; PyFloat Demo.one]) ∧
  dict_get (row2dict Demo.row) "FLUX_G" = Some PyNone ∧
  dict_get (row2dict Demo.row) "HEALPIX" = Some (PyInt 9103).
Proof.
  split; [|split].
  - exact (proj1 (row2dict_converts Demo.row "COEFF"
                    (NpArray [Demo.f64 Demo.one; Demo.f64 Demo.one]) eq_refl)).
  - exact (proj1 (row2dict_converts Demo.row "FLUX_G" NpMasked eq_refl)).
  - exact (proj1 (row2dict_converts Demo.row "HEALPIX"
                    (NpScalar (NpInt int32 9103)) eq_refl)).
Defined.

(** C9. The JSON handler leaves the process state (catalog, files,
    output) as it found it, so a second request for the same identifier
    returns the same document, or raises the same exception, as the
    first. *)
Theorem json_repeatable `{Library} targetid w :
  (get_coadd_spectrum_json targetid w).2 = w ∧
  get_coadd_spectrum_json targetid (get_coadd_spectrum_json targetid w).2 =
    get_coadd_spectrum_json targetid w.
Proof.
  pose proof (readonly_json targetid w) as Hw. split; [done|]. by rewrite Hw.
Qed.

(** C10. In the JSON handler a missing extension is reported like an
    unknown identifier.  Every [KeyError] the body of the [try] raises
    is answered by the clause that answers a catalog miss: the 404
    response whose detail is "TARGETID not found in `zall-pix-fuji`
    table. " followed by the text of the [KeyError].  For a catalog row
    whose file is readable this is the answer when the file has no
    [FIBERMAP] extension, and when the fibermap has a row for the
    identifier and the file has no [SCORES] extension. *)
Theorem missing_extension_reported_as_unknown `{Library}
    targetid w zall row hdul :
  payload w !! "zall" = Some zall →
  loc zall targetid = Returns (LocRow row) →
  disk w !! file_coadd (SURVEY row) (PROGRAM row) (HEALPIX row) = Some hdul →
  let not_found k :=
    Raises (HTTPException 404
      ("TARGETID not found in `zall-pix-fuji` table. " +:+
       exc_str (KeyError k))) in
  (∀ k, (json_body zall targetid w).1 = Raises (KeyError k) →
        (get_coadd_spectrum_json targetid w).1 = not_found k) ∧
  ("FIBERMAP" ∉ hdul.*1 →
   (get_coadd_spectrum_json targetid w).1 =
     not_found (ExtensionNotFound "FIBERMAP")) ∧
  (∀ fibermap ispec,
     hdul_getitem hdul "FIBERMAP" = Returns fibermap →
     row_index fibermap targetid = Returns ispec →
     "SCORES" ∉ hdul.*1 →
     (get_coadd_spectrum_json targetid w).1 =
       not_found (ExtensionNotFound "SCORES")).
Proof.
  intros Hzall Hloc Hdisk not_found.
  assert (∀ k, (json_body zall targetid w).1 = Raises (KeyError k) →
               (get_coadd_spectrum_json targetid w).1 = not_found k) as Hkey.
  { intros k Hbody. by rewrite (json_run _ _ _ Hzall), Hbody. }
  split; [done|]. split.
  - intros Hmissing. apply Hkey.
    rewrite (json_body_found _ _ _ _ _ Hloc Hdisk).
    by rewrite (hdul_getitem_missing hdul "FIBERMAP" Hmissing).
  - intros fibermap ispec Hfm Hidx Hmissing. apply Hkey.
    rewrite (json_body_found _ _ _ _ _ Hloc Hdisk).
    rewrite Hfm. unfold mbind at 1. unfold outcome_bind at 1.
    rewrite Hidx. unfold mbind at 1. unfold outcome_bind at 1.
    by rewrite (hdul_getitem_missing hdul "SCORES" Hmissing).
Qed.

Lemma missing_extension_reported_as_unknown_witness :
  (get_coadd_spectrum_json Demo.targetid
     (Demo.world_of Demo.coadd_no_fibermap)).1 =
    Raises (HTTPException 404
      "TARGETID not found in `zall-pix-fuji` table. Extension 'FIBERMAP' not found.") ∧
  (get_coadd_spectrum_json Demo.targetid
     (Demo.world_of Demo.coadd_no_scores)).1 =
    Raises (HTTPException 404
      "TARGETID not found in `zall-pix-fuji` table. Extension 'SCORES' not found.").
Proof.
  assert ("FIBERMAP" ∉ Demo.coadd_no_fibermap.*1) as Hfibermap
    by (apply (bool_decide_unpack _); vm_compute; exact I).
  assert ("SCORES" ∉ Demo.coadd_no_scores.*1) as Hscores
    by (apply (bool_decide_unpack _); vm_compute; exact I).
  split.
  - exact (proj1 (proj2 (missing_extension_reported_as_unknown Demo.targetid
             (Demo.world_of Demo.coadd_no_fibermap) Demo.zall Demo.row
             Demo.coadd_no_fibermap eq_refl eq_refl eq_refl)) Hfibermap).
  - exact (proj2 (proj2 (missing_extension_reported_as_unknown Demo.targetid
             (Demo.world_of Demo.coadd_no_scores) Demo.zall Demo.row
             Demo.coadd_no_scores eq_refl eq_refl eq_refl))
             Demo.fibermap 1%nat eq_refl eq_refl Hscores).
Defined.

(** * Further properties of the service *)

(** ** Dictionaries built by the two conversion loops *)

Lemma dict_set_keys_new (d : dict) key value :
  key ∉ d.*1 → (dict_set d key value).*1 = d.*1 ++ [key].
Proof.
  induction d as [|[k v] d IH]; csimpl; [done|].
  intros Hnew. apply not_elem_of_cons in Hnew as [Hne Hnew].
  destruct (String.eqb_spec k key); [congruence|]. csimpl. by rewrite IH.
Qed.

Lemma dict_set_forallb (P : string * pyval → bool) (d : dict) key value :
  forallb P d = true → (∀ k v, P (k, v) = P (key, v)) → P (key, value) = true →
  forallb P (dict_set d key value) = true.
Proof.
  intros Hd Hkey Hv. induction d as [|[k v] d IH]; simpl in *.
  - by rewrite Hv.
  - apply andb_prop in Hd as [Hkv Hd].
    destruct (String.eqb k key); simpl.
    + by rewrite (Hkey k value), Hv, Hd.
    + by rewrite Hkv, IH.
Qed.

Lemma dict_get_is_Some (d : dict) key :
  key ∈ d.*1 → is_Some (dict_get d key).
Proof.
  induction d as [|[k v] d IH]; csimpl; [by intros ?%elem_of_nil|].
  intros Hin. destruct (String.eqb_spec k key) as [->|Hne]; [eauto|].
  apply elem_of_cons in Hin as [?|Hin]; [congruence | auto].
Qed.

Lemma dict_get_elem (d : dict) key value :
  dict_get d key = Some value → (key, value) ∈ d.
Proof.
  induction d as [|[k v] d IH]; simpl; [done|].
  destruct (String.eqb_spec k key) as [->|Hne].
  - intros [= ->]. apply elem_of_cons. by left.
  - intros Hget. apply elem_of_cons. right. auto.
Qed.

Lemma row2dict_loop_keys row keys (d : dict) :
  (∀ key, key ∈ keys → is_Some (row_getitem row key)) →
  NoDup (d.*1 ++ keys) →
  (row2dict_loop row keys d).*1 = d.*1 ++ keys.
Proof.
  revert d. induction keys as [|k keys IH]; intros d Hsome Hnodup; csimpl.
  - by rewrite app_nil_r.
  - destruct (Hsome k) as [value Hk]; [apply elem_of_cons; by left|].
    rewrite Hk.
    assert (k ∉ d.*1) as Hnew.
    { apply NoDup_app in Hnodup as (_ & Hdisj & _).
      intros Hin. apply (Hdisj k Hin), elem_of_cons. by left. }
    rewrite IH.
    + rewrite (dict_set_keys_new _ _ _ Hnew). by rewrite <- app_assoc.
    + intros key Hin. apply Hsome, elem_of_cons. by right.
    + rewrite (dict_set_keys_new _ _ _ Hnew). by rewrite <- app_assoc.
Qed.

(** X1. The dictionary of a catalog row has the columns of the row as
    its keys, each once and in table order, when the column names are
    distinct. *)
Theorem row2dict_keys (row : Row) :
  NoDup (row_keys row) → (row2dict row).*1 = row_keys row.
Proof.
  intros Hnodup. unfold row2dict.
  rewrite row2dict_loop_keys; [done| |done].
  intros key Hin. by apply dict_get_is_Some.
Qed.

Lemma row2dict_keys_witness :
  (row2dict Demo.row).*1 =
    ["TARGETID"; "SURVEY"; "PROGRAM"; "HEALPIX";
     "Z"; "ZWARN"; "COEFF"; "FLUX_G"; "SPECTYPE"].
Proof.
  assert (NoDup (row_keys Demo.row)) as Hnodup
    by (apply (bool_decide_unpack _); vm_compute; exact I).
  exact (row2dict_keys Demo.row Hnodup).
Defined.

(** ** Which conversions are plain *)

Lemma convert_plain (value : pyval) : plain (convert value) = native value.
Proof.
  destruct value as [| | | | | | | |x|items]; try done.
  - by destruct x as [[]|[]|].
  - apply tolist_items_plain.
Qed.

Lemma row2dict_loop_plain row keys (d : dict) :
  (∀ key value, row_getitem row key = Some value → native value = true) →
  forallb (λ kv, plain kv.2) d = true →
  forallb (λ kv, plain kv.2) (row2dict_loop row keys d) = true.
Proof.
  intros Hnative. revert d. induction keys as [|k keys IH]; intros d Hd; [done|].
  simpl. destruct (row_getitem row k) as [value|] eqn:Hk; [|auto].
  apply IH, dict_set_forallb; [done|done|].
  simpl. rewrite convert_plain. eauto.
Qed.

(** X2. The dictionary of a catalog row is made of plain Python values
    (no numpy scalar, masked constant or array anywhere in it) exactly
    when every field of the row is the masked constant, an array, a
    numpy scalar of type int64, int32, int16, uint8, float64, float32 or
    bool_, or a plain value already. *)
Theorem row2dict_plain (row : Row) :
  plain (PyDict (row2dict row)) = true ↔
  ∀ key value, row_getitem row key = Some value → native value = true.
Proof.
  split.
  - intros Hplain key value Hrow. simpl in Hplain.
    rewrite forallb_forall in Hplain.
    assert (dict_get (row2dict row) key = Some (convert value)) as Hget.
    { apply row2dict_loop_sets; [|done]. by apply dict_get_key in Hrow. }
    apply dict_get_elem, list_elem_of_In, Hplain in Hget.
    simpl in Hget. by rewrite convert_plain in Hget.
  - intros Hnative. simpl. by apply row2dict_loop_plain.
Qed.

(** X3. [rec2dict] returns exactly when every column of the record
    array has the row [ispec]; the dictionary then holds, under each
    column name, the converted value of that row.  Otherwise it raises
    [IndexError] for a column that is too short, and nothing else. *)
Theorem rec2dict_range (rec : BinTable) (ispec : nat) :
  match rec2dict rec ispec with
  | Returns d =>
      ∀ key col, rec_field rec key = Returns col →
        ∃ value, col !! ispec = Some value ∧
                 dict_get d key = Some (convert value)
  | Raises e =>
      e = IndexError ∧
      ∃ key col, rec_field rec key = Returns col ∧ col !! ispec = None
  end.
Proof.
  pose proof (rec2dict_loop_range rec ispec rec.*1 []
                (rec_field_is_Returns rec)) as Hrange.
  destruct (rec2dict rec ispec) as [d|e] eqn:Hd; unfold rec2dict in Hd;
    rewrite Hd in Hrange.
  - intros key col Hcol.
    destruct (Hrange key col (rec_field_key _ _ _ Hcol) Hcol) as [value Hv].
    exists value. split; [done|]. by eapply rec2dict_converts.
  - destruct Hrange as (-> & key & col & _ & Hcol & Hnone). eauto.
Qed.

Lemma rec2dict_loop_plain (rec : BinTable) ispec keys (d d' : dict) :
  Forall (λ col, Forall (λ v, native v = true) col.2) rec →
  forallb (λ kv, plain kv.2) d = true →
  rec2dict_loop rec ispec keys d = Returns d' →
  forallb (λ kv, plain kv.2) d' = true.
Proof.
  intros Hnative. revert d. induction keys as [|k keys IH]; intros d Hd; simpl.
  - by intros [= <-].
  - unfold mbind, outcome_bind, getitem.
    destruct (rec_field rec k) as [c|] eqn:Hk; [|done].
    destruct (c !! ispec) as [v|] eqn:Hv; [|done].
    apply IH, dict_set_forallb; [done|done|].
    simpl. rewrite convert_plain.
    assert (Forall (λ v, native v = true) c) as Hc.
    { clear -Hnative Hk. induction Hnative as [|[n col] rec Hcol _ IH];
        simpl in Hk; [done|].
      destruct (String.eqb n k); [by injection Hk as <-|auto]. }
    rewrite Forall_forall in Hc. apply Hc. by eapply list_elem_of_lookup_2.
Qed.

(** ** What a returned document holds *)

(** X4. A document the JSON handler returns is that of the requested
    object: its [zall_pix_info] is the converted row of the one catalog
    row with the requested [TARGETID], and it lists that identifier and
    the row's survey, program and healpix. *)
Theorem json_document_of_request `{Library} targetid w output :
  (get_coadd_spectrum_json targetid w).1 = Returns output →
  ∃ zall row scores data,
    payload w !! "zall" = Some zall ∧
    filter (λ r, TARGETID r = targetid) zall = [row] ∧
    output = PyDict [("zall_pix_info", PyDict (row2dict row));
                     ("scores", PyDict scores);
                     ("data", PyDict data)] ∧
    dict_get (row2dict row) "TARGETID" = Some (PyInt targetid) ∧
    dict_get (row2dict row) "SURVEY" = Some (PyStr (SURVEY row)) ∧
    dict_get (row2dict row) "PROGRAM" = Some (PyStr (PROGRAM row)) ∧
    dict_get (row2dict row) "HEALPIX" = Some (PyInt (HEALPIX row)).
Proof.
  intros Hret.
  destruct (json_returns_inv _ _ _ Hret)
    as (zall & row & hdul & fibermap & ispec & rec & scores & b & r & z &
        Hzall & Hloc & _ & _ & _ & _ & _ & _ & _ & _ & ->).
  apply loc_row in Hloc as (Hfilter & _ & Hid).
  exists zall, row, scores, z. repeat (split; [done|]).
  assert (∀ key value, row_getitem row key = Some value →
            dict_get (row2dict row) key = Some (convert value)) as Hget.
  { intros key value Hrow. apply row2dict_loop_sets; [|done].
    by apply dict_get_key in Hrow. }
  split; [|split; [|split]].
  - rewrite <- Hid. by apply (Hget "TARGETID" (NpScalar (NpInt int64 _))).
  - by apply (Hget "SURVEY" (PyStr _)).
  - by apply (Hget "PROGRAM" (PyStr _)).
  - by apply (Hget "HEALPIX" (NpScalar (NpInt int32 _))).
Qed.

Lemma json_document_of_request_witness :
  ∃ row,
    filter (λ r, TARGETID r = Demo.targetid) Demo.zall = [row] ∧
    dict_get (row2dict row) "TARGETID" = Some (PyInt Demo.targetid).
Proof.
  assert (∃ output,
            (get_coadd_spectrum_json Demo.targetid Demo.world).1 =
              Returns output) as [output Hret]
    by (eexists; vm_compute; reflexivity).
  destruct (json_document_of_request Demo.targetid Demo.world output Hret)
    as (zall & row & _ & _ & Hzall & Hfilter & _ & Hid & _).
  injection Hzall as <-. by exists row.
Defined.

(** X5. In a returned document the scores and the arrays are those of
    the object's row in its coadd file: with [ispec] the first offset at
    which the fibermap has the identifier, [scores] is the conversion of
    row [ispec] of the [SCORES] table, and for each arm the wavelength
    entry is the whole [_WAVELENGTH] array while the flux, ivar and mask
    entries are section [ispec] of the arm's three arrays. *)
Theorem json_document_sections `{Library} targetid w output :
  (get_coadd_spectrum_json targetid w).1 = Returns output →
  ∃ zall row hdul fibermap ispec rec info scores (data : dict),
    payload w !! "zall" = Some zall ∧
    loc zall targetid = Returns (LocRow row) ∧
    disk w !! file_coadd (SURVEY row) (PROGRAM row) (HEALPIX row)
      = Some hdul ∧
    hdul_getitem hdul "FIBERMAP" = Returns fibermap ∧
    row_index fibermap targetid = Returns ispec ∧
    hdul_getitem hdul "SCORES" = Returns (BinTableHDU rec) ∧
    rec2dict rec ispec = Returns scores ∧
    output = PyDict [("zall_pix_info", PyDict info);
                     ("scores", PyDict scores);
                     ("data", PyDict data)] ∧
    Forall (λ '(arm, key),
      ∃ wavelength flux ivar mask,
        data_tolist hdul (arm +:+ "_WAVELENGTH") = Returns wavelength ∧
        section hdul (arm +:+ "_FLUX") ispec = Returns flux ∧
        section hdul (arm +:+ "_IVAR") ispec = Returns ivar ∧
        section hdul (arm +:+ "_MASK") ispec = Returns mask ∧
        dict_get data (key +:+ "_wavelength") = Some wavelength ∧
        dict_get data (key +:+ "_flux") = Some (tolist flux) ∧
        dict_get data (key +:+ "_ivar") = Some (tolist ivar) ∧
        dict_get data (key +:+ "_mask") = Some (tolist mask)) arm_names.
Proof.
  intros Hret.
  destruct (json_returns_inv _ _ _ Hret)
    as (zall & row & hdul & fibermap & ispec & rec & scores & b & r & z &
        Hzall & Hloc & Hdisk & Hfm & Hidx & Hsc & Hscores & Hb & Hr & Hz & ->).
  exists zall, row, hdul, fibermap, ispec, rec, (row2dict row), scores, z.
  repeat (split; [done|]).
  apply read_arm_reads in Hb as (wb & fb & ib & mb & ? & ? & ? & ? & ->).
  apply read_arm_reads in Hr as (wr & fr & ir & mr & ? & ? & ? & ? & ->).
  apply read_arm_reads in Hz as (wz & fz & iz & mz & ? & ? & ? & ? & ->).
  repeat constructor.
  - exists wb, fb, ib, mb. by repeat (split; [done|]).
  - exists wr, fr, ir, mr. by repeat (split; [done|]).
  - exists wz, fz, iz, mz. by repeat (split; [done|]).
Qed.

Lemma json_document_sections_witness :
  ∃ ispec (data : dict) flux,
    row_index Demo.fibermap Demo.targetid = Returns ispec ∧
    section Demo.coadd "R_FLUX" ispec = Returns flux ∧
    dict_get data "r_flux" = Some (tolist flux).
Proof.
  assert (∃ output,
            (get_coadd_spectrum_json Demo.targetid Demo.world).1 =
              Returns output) as [output Hret]
    by (eexists; vm_compute; reflexivity).
  destruct (json_document_sections Demo.targetid Demo.world output Hret)
    as (zall & row & hdul & fibermap & ispec & rec & info & scores & data &
        Hzall & Hloc & Hdisk & Hfm & Hidx & _ & _ & _ & Harms).
  injection Hzall as <-. injection Hloc as <-.
  injection Hdisk as <-. injection Hfm as <-.
  apply Forall_cons_1 in Harms as [_ Harms].
  apply Forall_cons_1 in Harms as [(_ & flux & _ & _ & _ & Hflux & _ & _ & _ & Hget & _) _].
  by exists ispec, data, flux.
Defined.

Section PlainDocuments.
Context `{Library}.

Lemma read_arm_plain hdul ispec arm key (data data' : dict) items :
  hdul_getitem hdul (arm +:+ "_WAVELENGTH") = Returns (ImageHDU items) →
  forallb (λ kv, plain kv.2) data = true →
  read_arm hdul ispec arm key data = Returns data' →
  forallb (λ kv, plain kv.2) data' = true.
Proof.
  intros Himg Hdata Hread.
  apply read_arm_reads in Hread
    as (wavelength & flux & ivar & mask & Hw & _ & _ & _ & ->).
  unfold data_tolist, mbind, outcome_bind in Hw. rewrite Himg in Hw.
  injection Hw as <-.
  repeat (apply dict_set_forallb; [|done|]); [done|..];
    simpl; auto using tolist_plain.
  apply (tolist_items_plain items).
Qed.

End PlainDocuments.

(** X6. A returned document is made of plain Python values throughout
    when the fields of the catalog row and the cells of the [SCORES]
    table convert to plain values and the three wavelength grids are
    image arrays. *)
Theorem json_document_plain `{Library} targetid w zall row hdul rec output :
  payload w !! "zall" = Some zall →
  loc zall targetid = Returns (LocRow row) →
  disk w !! file_coadd (SURVEY row) (PROGRAM row) (HEALPIX row) = Some hdul →
  Forall (λ kv, native kv.2 = true) (columns row) →
  hdul_getitem hdul "SCORES" = Returns (BinTableHDU rec) →
  Forall (λ col, Forall (λ v, native v = true) col.2) rec →
  Forall (λ '(arm, _), ∃ items,
            hdul_getitem hdul (arm +:+ "_WAVELENGTH") = Returns (ImageHDU items))
         arm_names →
  (get_coadd_spectrum_json targetid w).1 = Returns output →
  plain output = true.
Proof.
  intros Hzall Hloc Hdisk Hrow Hsc Hrec Hgrids Hret.
  destruct (json_returns_inv _ _ _ Hret)
    as (zall' & row' & hdul' & fibermap & ispec & rec' & scores & b & r & z &
        Hzall' & Hloc' & Hdisk' & _ & _ & Hsc' & Hscores & Hb & Hr & Hz & ->).
  rewrite Hzall in Hzall'. injection Hzall' as <-.
  rewrite Hloc in Hloc'. injection Hloc' as <-.
  rewrite Hdisk in Hdisk'. injection Hdisk' as <-.
  rewrite Hsc in Hsc'. injection Hsc' as <-.
  apply Forall_cons_1 in Hgrids as [[ib Hib] Hgrids].
  apply Forall_cons_1 in Hgrids as [[ir Hir] Hgrids].
  apply Forall_cons_1 in Hgrids as [[iz Hiz] _].
  assert (forallb (λ kv, plain kv.2) (row2dict row) = true) as Hinfo.
  { apply row2dict_loop_plain; [|done].
    intros key value Hget. apply dict_get_elem in Hget.
    unfold row_items in Hget.
    do 4 (apply elem_of_cons in Hget as [[= -> ->]|Hget]; [done|]).
    rewrite Forall_forall in Hrow. by apply (Hrow (key, value)). }
  assert (forallb (λ kv, plain kv.2) scores = true) as Hscores'.
  { unfold rec2dict in Hscores.
    by eapply rec2dict_loop_plain; [exact Hrec| |exact Hscores]. }
  assert (forallb (λ kv, plain kv.2) z = true) as Hdata.
  { eapply read_arm_plain; [exact Hiz| |exact Hz].
    eapply read_arm_plain; [exact Hir| |exact Hr].
    by eapply read_arm_plain; [exact Hib| |exact Hb]. }
  simpl. by rewrite Hinfo, Hscores', Hdata.
Qed.

Lemma json_document_plain_witness :
  ∃ output,
    (get_coadd_spectrum_json Demo.targetid Demo.world).1 = Returns output ∧
    plain output = true.
Proof.
  assert (∃ output,
            (get_coadd_spectrum_json Demo.targetid Demo.world).1 =
              Returns output) as [output Hret]
    by (eexists; vm_compute; reflexivity).
  exists output. split; [exact Hret|].
  assert (Forall (λ kv : string * pyval, native kv.2 = true)
            (columns Demo.row)) as Hrow by (repeat constructor).
  assert (Forall (λ col : string * list pyval,
                    Forall (λ v, native v = true) col.2)
            [("TSNR2_LRG", [NpScalar (NpFloat float32 Demo.one);
                            NpScalar (NpFloat float32 Demo.one)])]) as Hrec
    by (repeat constructor).
  assert (Forall (λ '(arm, _), ∃ items,
            hdul_getitem Demo.coadd (arm +:+ "_WAVELENGTH")
              = Returns (ImageHDU items)) arm_names) as Hgrids
    by (repeat constructor; eexists; reflexivity).
  exact (json_document_plain Demo.targetid Demo.world Demo.zall Demo.row
           Demo.coadd _ output eq_refl eq_refl eq_refl Hrow eq_refl Hrec
           Hgrids Hret).
Defined.

(** ** What a request reads and what it leaves behind *)

Section Requests.
Context `{Library}.

Lemma locate_raises zall targetid w e :
  loc zall targetid = Raises e → locate zall targetid w = (Raises e, w).
Proof.
  intros Hloc. unfold locate, lift, mbind, py_bind. by rewrite Hloc.
Qed.

Lemma locate_table zall targetid w rows :
  loc zall targetid = Returns (LocTable rows) →
  locate zall targetid w = (Raises TypeError, w).
Proof.
  intros Hloc. unfold locate, lift, mbind, py_bind. by rewrite Hloc.
Qed.

(** The first steps consult the files, not the rest of the state. *)
Lemma locate_ext zall targetid w1 w2 :
  disk w1 = disk w2 →
  (locate zall targetid w1).1 = (locate zall targetid w2).1.
Proof.
  intros Hdisk. destruct (loc zall targetid) as [[row|rows]|e] eqn:Hloc.
  - destruct (disk w2 !! file_coadd (SURVEY row) (PROGRAM row) (HEALPIX row))
      as [hdul|] eqn:Hfile.
    + rewrite (locate_found _ _ w2 _ _ Hloc Hfile).
      rewrite <- Hdisk in Hfile. by rewrite (locate_found _ _ w1 _ _ Hloc Hfile).
    + rewrite (locate_missing_file _ _ w2 _ Hloc Hfile).
      rewrite <- Hdisk in Hfile.
      by rewrite (locate_missing_file _ _ w1 _ Hloc Hfile).
  - by rewrite !(locate_table _ _ _ _ Hloc).
  - by rewrite !(locate_raises _ _ _ _ Hloc).
Qed.

Lemma json_body_raises zall targetid w e :
  (locate zall targetid w).1 = Raises e →
  (json_body zall targetid w).1 = Raises e.
Proof.
  intros Hlocate. unfold json_body. unfold mbind at 1. unfold py_bind.
  by destruct (locate zall targetid w) as [[?|?] ?]; simpl in *; simplify_eq.
Qed.

Lemma json_body_ext zall targetid w1 w2 :
  disk w1 = disk w2 →
  (json_body zall targetid w1).1 = (json_body zall targetid w2).1.
Proof.
  intros Hdisk. destruct (loc zall targetid) as [[row|rows]|e] eqn:Hloc.
  - destruct (disk w2 !! file_coadd (SURVEY row) (PROGRAM row) (HEALPIX row))
      as [hdul|] eqn:Hfile.
    + rewrite (json_body_found _ _ w2 _ _ Hloc Hfile).
      rewrite <- Hdisk in Hfile. by rewrite (json_body_found _ _ w1 _ _ Hloc Hfile).
    + rewrite (json_body_raises _ _ w2 (FileNotFoundError
                 (file_coadd (SURVEY row) (PROGRAM row) (HEALPIX row))))
        by (by rewrite (locate_missing_file _ _ _ _ Hloc Hfile)).
      rewrite <- Hdisk in Hfile.
      by rewrite (json_body_raises _ _ w1 _)
        by (by rewrite (locate_missing_file _ _ _ _ Hloc Hfile)).
  - by rewrite !(json_body_raises _ _ _ TypeError)
      by (by rewrite (locate_table _ _ _ _ Hloc)).
  - by rewrite !(json_body_raises _ _ _ e)
      by (by rewrite (locate_raises _ _ _ _ Hloc)).
Qed.

(** The answer of the JSON handler is a function of the loaded catalog
    and the files. *)
Lemma json_response_ext targetid w1 w2 :
  payload w1 = payload w2 → disk w1 = disk w2 →
  (get_coadd_spectrum_json targetid w1).1 =
  (get_coadd_spectrum_json targetid w2).1.
Proof.
  intros Hpayload Hdisk.
  destruct (payload w2 !! "zall") as [zall|] eqn:Hzall.
  - rewrite (json_run _ w2 _ Hzall). rewrite <- Hpayload in Hzall.
    rewrite (json_run _ w1 _ Hzall). simpl.
    by rewrite (json_body_ext _ _ _ _ Hdisk).
  - unfold get_coadd_spectrum_json, mbind, py_bind, payload_getitem.
    by rewrite Hpayload, Hzall.
Qed.

(** The CSV handler, once the catalog is loaded: the answer and the
    state after it.  The arm is printed after the row is located and
    before the file is opened for the arrays. *)
Lemma csv_eval targetid filter w zall :
  payload w !! "zall" = Some zall →
  get_coadd_spectrum_csv targetid filter w =
    match (locate zall targetid w).1 with
    | Raises e => (Raises (csv_except e), w)
    | Returns (row, path, ispec) =>
        (match disk w !! path with
         | None => Raises (csv_except (FileNotFoundError path))
         | Some hdul =>
             match read_table hdul ispec filter with
             | Returns buffer =>
                 Returns {| content := buffer; media_type := "text/csv" |}
             | Raises e => Raises (csv_except e)
             end
         end,
         {| payload := payload w; disk := disk w;
            stdout := stdout w ++ [filter] |})
    end.
Proof.
  intros Hzall. pose proof (readonly_locate zall targetid w) as Hw.
  unfold get_coadd_spectrum_csv, csv_body, payload_getitem, try_except.
  unfold print, fits_open, lift, raise.
  unfold mbind, mret, py_bind, py_ret. rewrite Hzall.
  destruct (locate zall targetid w) as [[[[row path] ispec]|e] w'];
    simpl in *; subst w'; [|done].
  destruct (disk w !! path) as [hdul|]; [|done].
  by destruct (read_table hdul ispec filter).
Qed.

Lemma csv_unloaded targetid filter w :
  payload w !! "zall" = None →
  get_coadd_spectrum_csv targetid filter w = (Raises (KeyError (DictKey "zall")), w).
Proof.
  intros Hzall. unfold get_coadd_spectrum_csv, mbind, py_bind, payload_getitem.
  by rewrite Hzall.
Qed.

Lemma json_unloaded targetid w :
  payload w !! "zall" = None →
  get_coadd_spectrum_json targetid w = (Raises (KeyError (DictKey "zall")), w).
Proof.
  intros Hzall. unfold get_coadd_spectrum_json, mbind, py_bind, payload_getitem.
  by rewrite Hzall.
Qed.

(** The state a CSV request leaves: the catalog and the files as they
    were. *)
Lemma csv_keeps targetid filter w :
  payload (get_coadd_spectrum_csv targetid filter w).2 = payload w ∧
  disk (get_coadd_spectrum_csv targetid filter w).2 = disk w.
Proof.
  destruct (payload w !! "zall") as [zall|] eqn:Hzall.
  - rewrite (csv_eval _ _ _ _ Hzall).
    by destruct ((locate zall targetid w).1) as [[[row path] ispec]|e].
  - by rewrite (csv_unloaded _ _ _ Hzall).
Qed.

Lemma csv_response_ext targetid filter w1 w2 :
  payload w1 = payload w2 → disk w1 = disk w2 →
  (get_coadd_spectrum_csv targetid filter w1).1 =
  (get_coadd_spectrum_csv targetid filter w2).1.
Proof.
  intros Hpayload Hdisk.
  destruct (payload w2 !! "zall") as [zall|] eqn:Hzall.
  - rewrite (csv_eval _ _ w2 _ Hzall). rewrite <- Hpayload in Hzall.
    rewrite (csv_eval _ _ w1 _ Hzall).
    rewrite (locate_ext _ _ _ _ Hdisk), Hdisk.
    by destruct ((locate zall targetid w2).1) as [[[row path] ispec]|e].
  - rewrite (csv_unloaded _ _ w2 Hzall). rewrite <- Hpayload in Hzall.
    by rewrite (csv_unloaded _ _ w1 Hzall).
Qed.

End Requests.

(** X7. A CSV request leaves the catalog and the files as they were.
    It prints the arm once, and only when the catalog row and the row
    of the object in its fibermap were found: a request that fails in
    these first steps prints nothing, one that fails later (an arm the
    file does not have) has printed already. *)
Theorem csv_state_effect `{Library} targetid filter w :
  payload (get_coadd_spectrum_csv targetid filter w).2 = payload w ∧
  disk (get_coadd_spectrum_csv targetid filter w).2 = disk w ∧
  stdout (get_coadd_spectrum_csv targetid filter w).2 =
    match payload w !! "zall" with
    | Some zall =>
        match (locate zall targetid w).1 with
        | Returns _ => stdout w ++ [filter]
        | Raises _ => stdout w
        end
    | None => stdout w
    end.
Proof.
  destruct (csv_keeps targetid filter w) as [Hpayload Hdisk].
  split; [done|]. split; [done|].
  destruct (payload w !! "zall") as [zall|] eqn:Hzall.
  - rewrite (csv_eval _ _ _ _ Hzall).
    by destruct ((locate zall targetid w).1) as [[[row path] ispec]|e].
  - by rewrite (csv_unloaded _ _ _ Hzall).
Qed.

(** X8. Requests do not interfere: after a CSV request, a request of
    either kind is answered as it would have been before it (the answer
    does not depend on what was printed).  In particular a repeated CSV
    request gets the same answer. *)
Theorem requests_do_not_interfere `{Library} targetid filter targetid' filter' w :
  (get_coadd_spectrum_json targetid'
     (get_coadd_spectrum_csv targetid filter w).2).1 =
    (get_coadd_spectrum_json targetid' w).1 ∧
  (get_coadd_spectrum_csv targetid' filter'
     (get_coadd_spectrum_csv targetid filter w).2).1 =
    (get_coadd_spectrum_csv targetid' filter' w).1.
Proof.
  destruct (csv_keeps targetid filter w) as [Hpayload Hdisk]. split.
  - by apply json_response_ext.
  - by apply csv_response_ext.
Qed.

(** X9. After shutdown [payload] is empty, and the lookup
    [payload["zall"]] stands before the [try]: both coadd handlers then
    raise its [KeyError] itself, not a 404 or 500 response, and read no
    file; [root] still answers. *)
Theorem after_shutdown `{Library} targetid filter w :
  get_coadd_spectrum_json targetid (lifespan_shutdown w) =
    (Raises (KeyError (DictKey "zall")), lifespan_shutdown w) ∧
  get_coadd_spectrum_csv targetid filter (lifespan_shutdown w) =
    (Raises (KeyError (DictKey "zall")), lifespan_shutdown w) ∧
  root (lifespan_shutdown w) =
    (Returns (PyDict [("message", PyStr "Hello World from FastAPI!")]),
     lifespan_shutdown w).
Proof.
  split; [|split; [|done]].
  - apply json_unloaded, lifespan_shutdown_cleared.
  - apply csv_unloaded, lifespan_shutdown_cleared.
Qed.

Section Statuses.
Context `{Library}.

Lemma csv_except_status e :
  ∃ status detail,
    csv_except e = HTTPException status detail ∧ (status = 404 ∨ status = 500).
Proof. destruct e; simpl; eauto. Qed.

End Statuses.

(** X10. Once the catalog is loaded at startup, the only exceptions
    that leave the two coadd handlers are the 404 and the 500 response,
    whatever the identifier, the arm and the files. *)
Theorem after_startup `{Library} zall targetid filter w :
  match (get_coadd_spectrum_json targetid (lifespan_startup zall w)).1 with
  | Returns _ => True
  | Raises e =>
      ∃ status detail,
        e = HTTPException status detail ∧ (status = 404 ∨ status = 500)
  end ∧
  match (get_coadd_spectrum_csv targetid filter (lifespan_startup zall w)).1 with
  | Returns _ => True
  | Raises e =>
      ∃ status detail,
        e = HTTPException status detail ∧ (status = 404 ∨ status = 500)
  end.
Proof.
  pose proof (lifespan_startup_loaded zall w) as Hzall. split.
  - rewrite (json_run _ _ _ Hzall). simpl.
    destruct ((json_body zall targetid (lifespan_startup zall w)).1);
      [done | apply json_except_status].
  - rewrite (csv_run _ _ _ _ Hzall).
    destruct ((csv_body zall targetid filter (lifespan_startup zall w)).1);
      [done | apply csv_except_status].
Qed.

(** X11. When the catalog has the identifier and no file is at the
    path of its row, both handlers raise the 500 response with the text
    of the [FileNotFoundError] for that path, and the CSV handler has
    printed nothing. *)
Theorem missing_file_is_internal_error `{Library} targetid filter w zall row :
  payload w !! "zall" = Some zall →
  loc zall targetid = Returns (LocRow row) →
  disk w !! file_coadd (SURVEY row) (PROGRAM row) (HEALPIX row) = None →
  let response :=
    HTTPException 500
      ("Internal Server Error: " +:+
       exc_str (FileNotFoundError
                  (file_coadd (SURVEY row) (PROGRAM row) (HEALPIX row)))) in
  (get_coadd_spectrum_json targetid w).1 = Raises response ∧
  get_coadd_spectrum_csv targetid filter w = (Raises response, w).
Proof.
  intros Hzall Hloc Hfile response. split.
  - rewrite (json_run _ _ _ Hzall). simpl.
    by rewrite (json_body_raises _ _ _ _
                  (f_equal fst (locate_missing_file _ _ _ _ Hloc Hfile))).
  - rewrite (csv_eval _ _ _ _ Hzall).
    by rewrite (locate_missing_file _ _ _ _ Hloc Hfile).
Qed.

Lemma missing_file_is_internal_error_witness :
  (get_coadd_spectrum_json Demo.targetid Demo.world_no_file).1 =
    Raises (HTTPException 500
      "Internal Server Error: No such file or directory: '/data/desi/healpix/main/dark/91/9103/coadd-main-dark-9103.fits'") ∧
  stdout (get_coadd_spectrum_csv Demo.targetid "R" Demo.world_no_file).2 = [].
Proof.
  destruct (missing_file_is_internal_error Demo.targetid "R"
              Demo.world_no_file Demo.zall Demo.row eq_refl eq_refl eq_refl)
    as [Hjson Hcsv].
  split; [exact Hjson|]. by rewrite Hcsv.
Defined.

(** X12. When two or more catalog rows carry the identifier, the
    selection is a table and not a row: both handlers raise the 500
    response with the text of the [TypeError], and the CSV handler has
    printed nothing. *)
Theorem duplicate_identifier_is_internal_error `{Library}
    targetid filter w zall :
  payload w !! "zall" = Some zall →
  (2 ≤ length (base.filter (λ r, TARGETID r = targetid) zall))%nat →
  let response :=
    HTTPException 500 ("Internal Server Error: " +:+ exc_str TypeError) in
  (get_coadd_spectrum_json targetid w).1 = Raises response ∧
  get_coadd_spectrum_csv targetid filter w = (Raises response, w).
Proof.
  intros Hzall Htwice response.
  assert (∃ rows, loc zall targetid = Returns (LocTable rows)) as [rows Hloc].
  { unfold loc.
    destruct (base.filter (λ r, TARGETID r = targetid) zall)
      as [|r [|r' rows]]; simpl in Htwice; [lia|lia|eauto]. }
  split.
  - rewrite (json_run _ _ _ Hzall). simpl.
    by rewrite (json_body_raises _ _ _ _
                  (f_equal fst (locate_table _ _ _ _ Hloc))).
  - rewrite (csv_eval _ _ _ _ Hzall).
    by rewrite (locate_table _ _ _ _ Hloc).
Qed.

Lemma duplicate_identifier_is_internal_error_witness :
  (get_coadd_spectrum_json Demo.targetid Demo.world_twice).1 =
    Raises (HTTPException 500
      "Internal Server Error: only length-1 arrays can be converted to Python scalars").
Proof.
  assert (2 ≤ length (base.filter (λ r, TARGETID r = Demo.targetid)
                        [Demo.row; Demo.row_u16; Demo.row]))%nat as Htwice
    by (vm_compute; lia).
  exact (proj1 (duplicate_identifier_is_internal_error Demo.targetid "R"
                  Demo.world_twice _ eq_refl Htwice)).
Defined.

Section Arms_read.
Context `{Library}.


(** A located row: the catalog row, its path, the opened file and the
    offset in its fibermap. *)
Lemma locate_returns zall targetid w row path ispec :
  (locate zall targetid w).1 = Returns (row, path, ispec) →
  loc zall targetid = Returns (LocRow row) ∧
  path = file_coadd (SURVEY row) (PROGRAM row) (HEALPIX row) ∧
  ∃ hdul fibermap,
    disk w !! path = Some hdul ∧
    hdul_getitem hdul "FIBERMAP" = Returns fibermap ∧
    row_index fibermap targetid = Returns ispec.
Proof.
  destruct (loc zall targetid) as [[r|rows]|e] eqn:Hloc.
  - destruct (disk w !! file_coadd (SURVEY r) (PROGRAM r) (HEALPIX r))
      as [hdul|] eqn:Hfile.
    + rewrite (locate_found _ _ _ _ _ Hloc Hfile).
      unfold mbind, mret, outcome_bind, outcome_ret. simpl.
      destruct (hdul_getitem hdul "FIBERMAP") as [fibermap|] eqn:Hfm; [|done].
      destruct (row_index fibermap targetid) as [i|] eqn:Hidx; [|done].
      intros [= <- <- <-]. eauto 10.
    + by rewrite (locate_missing_file _ _ _ _ Hloc Hfile).
  - by rewrite (locate_table _ _ _ _ Hloc).
  - by rewrite (locate_raises _ _ _ _ Hloc).
Qed.

Lemma hdul_find_is_Some (hdul : HDUList) key hdu :
  hdul_find hdul key = Some hdu → key ∈ hdul.*1.
Proof.
  induction hdul as [|[n h] hdul IH]; csimpl; [done|].
  destruct (String.eqb_spec n key) as [->|Hne]; intros Hget.
  - apply elem_of_cons. by left.
  - apply elem_of_cons. right. auto.
Qed.

Lemma getitem_is_Returns (hdul : HDUList) name hdu :
  hdul_getitem hdul name = Returns hdu → extname name ∈ hdul.*1.
Proof.
  unfold hdul_getitem.
  destruct (hdul_find hdul (extname name)) as [h|] eqn:Hfind; [|done].
  intros _. by eapply hdul_find_is_Some.
Qed.

Lemma data_tolist_present hdul name value :
  data_tolist hdul name = Returns value → extname name ∈ hdul.*1.
Proof.
  unfold data_tolist, mbind, outcome_bind.
  destruct (hdul_getitem hdul name) eqn:Hget; [|done].
  intros _. by eapply getitem_is_Returns.
Qed.

Lemma section_present hdul name ispec value :
  section hdul name ispec = Returns value → extname name ∈ hdul.*1.
Proof.
  unfold section, mbind, outcome_bind.
  destruct (hdul_getitem hdul name) eqn:Hget; [|done].
  intros _. by eapply getitem_is_Returns.
Qed.

End Arms_read.



(** X14. The JSON handler returns no document for a file that lacks any
    of the fourteen extensions it reads: for a catalog row whose file
    is on disk without one of them, it raises the 404 or the 500
    response. *)
Theorem json_needs_every_extension `{Library} targetid w zall row hdul name :
  payload w !! "zall" = Some zall →
  loc zall targetid = Returns (LocRow row) →
  disk w !! file_coadd (SURVEY row) (PROGRAM row) (HEALPIX row) = Some hdul →
  name ∈ coadd_extensions →
  name ∉ hdul.*1 →
  ∃ status detail,
    (get_coadd_spectrum_json targetid w).1 =
      Raises (HTTPException status detail) ∧
    (status = 404 ∨ status = 500).
Proof.
  intros Hzall Hloc Hdisk Hname Hmissing.
  destruct ((get_coadd_spectrum_json targetid w).1) as [output|e] eqn:Hret.
  - exfalso.
    destruct (json_returns_inv _ _ _ Hret)
      as (zall' & row' & hdul' & fibermap & ispec & rec & scores & b & r & z &
          Hzall' & Hloc' & Hdisk' & Hfm & _ & Hsc & _ & Hb & Hr & Hz & _).
    rewrite Hzall in Hzall'. injection Hzall' as <-.
    rewrite Hloc in Hloc'. injection Hloc' as <-.
    rewrite Hdisk in Hdisk'. injection Hdisk' as <-.
    apply read_arm_reads in Hb
      as (? & ? & ? & ? & ?%data_tolist_present & ?%section_present &
          ?%section_present & ?%section_present & _).
    apply read_arm_reads in Hr
      as (? & ? & ? & ? & ?%data_tolist_present & ?%section_present &
          ?%section_present & ?%section_present & _).
    apply read_arm_reads in Hz
      as (? & ? & ? & ? & ?%data_tolist_present & ?%section_present &
          ?%section_present & ?%section_present & _).
    apply getitem_is_Returns in Hfm, Hsc.
    unfold coadd_extensions in Hname.
    repeat (apply elem_of_cons in Hname as [->|Hname]; [done|]).
    by apply elem_of_nil in Hname.
  - rewrite (json_run _ _ _ Hzall) in Hret. simpl in Hret.
    destruct ((json_body zall targetid w).1) as [|e']; [done|].
    injection Hret as <-.
    destruct (json_except_status e') as (status & detail & -> & Hstatus).
    eauto.
Qed.

Lemma json_needs_every_extension_witness :
  ∃ status detail,
    (get_coadd_spectrum_json Demo.targetid
       (Demo.world_of Demo.coadd_no_z)).1 =
      Raises (HTTPException status detail) ∧
    (status = 404 ∨ status = 500).
Proof.
  assert ("Z_IVAR" ∈ coadd_extensions) as Hname
    by (apply (bool_decide_unpack _); vm_compute; exact I).
  assert ("Z_IVAR" ∉ Demo.coadd_no_z.*1) as Hmissing
    by (apply (bool_decide_unpack _); vm_compute; exact I).
  exact (json_needs_every_extension Demo.targetid
           (Demo.world_of Demo.coadd_no_z) Demo.zall Demo.row Demo.coadd_no_z
           "Z_IVAR" eq_refl eq_refl eq_refl Hname Hmissing).
Defined.

Section Tables.
Context `{Library}.

(** Every step a returned CSV response went through. *)
Lemma csv_returns_inv targetid filter w response :
  (get_coadd_spectrum_csv targetid filter w).1 = Returns response →
  ∃ zall row hdul fibermap ispec hdu wavelength flux ivar mask,
    payload w !! "zall" = Some zall ∧
    loc zall targetid = Returns (LocRow row) ∧
    disk w !! file_coadd (SURVEY row) (PROGRAM row) (HEALPIX row)
      = Some hdul ∧
    hdul_getitem hdul "FIBERMAP" = Returns fibermap ∧
    row_index fibermap targetid = Returns ispec ∧
    hdul_getitem hdul (filter +:+ "_WAVELENGTH") = Returns hdu ∧
    astype_float hdu = Returns wavelength ∧
    section hdul (filter +:+ "_FLUX") ispec = Returns flux ∧
    section hdul (filter +:+ "_IVAR") ispec = Returns ivar ∧
    section hdul (filter +:+ "_MASK") ispec = Returns mask ∧
    table_csv wavelength flux ivar mask = Returns (content response) ∧
    media_type response = "text/csv".
Proof.
  destruct (payload w !! "zall") as [zall|] eqn:Hzall;
    [|by rewrite (csv_unloaded _ _ _ Hzall)].
  rewrite (csv_eval _ _ _ _ Hzall).
  destruct ((locate zall targetid w).1) as [[[row path] ispec]|e] eqn:Hlocate;
    [|done].
  apply locate_returns in Hlocate
    as (Hloc & -> & hdul & fibermap & Hdisk & Hfm & Hidx).
  simpl. rewrite Hdisk.
  destruct (read_table hdul ispec filter) as [buffer|] eqn:Hread; [|done].
  intros Hresp. injection Hresp as Hresp. subst response.
  revert Hread. unfold read_table, mbind, outcome_bind.
  destruct (hdul_getitem hdul (filter +:+ "_WAVELENGTH")) as [hdu|] eqn:Hhdu;
    [|done].
  destruct (astype_float hdu) as [wavelength|] eqn:Hw; [|done].
  destruct (section hdul (filter +:+ "_FLUX") ispec) as [flux|] eqn:Hflux;
    [|done].
  destruct (section hdul (filter +:+ "_IVAR") ispec) as [ivar|] eqn:Hivar;
    [|done].
  destruct (section hdul (filter +:+ "_MASK") ispec) as [mask|] eqn:Hmask;
    [|done].
  intros Hcsv.
  exists zall, row, hdul, fibermap, ispec, hdu, wavelength, flux, ivar, mask.
  simpl. by repeat (split; [done|]).
Qed.

End Tables.

(** X15. A CSV response is the table of the requested arm for the
    requested object, sent as [text/csv]: its text is what the CSV
    writer makes of the arm's wavelength array cast to float and of
    section [ispec] of the arm's flux, ivar and mask arrays, [ispec]
    being the offset at which the fibermap of the row's file has the
    identifier. *)
Theorem csv_table_of_arm `{Library} targetid filter w response :
  (get_coadd_spectrum_csv targetid filter w).1 = Returns response →
  media_type response = "text/csv" ∧
  ∃ zall row hdul fibermap ispec hdu wavelength flux ivar mask,
    payload w !! "zall" = Some zall ∧
    loc zall targetid = Returns (LocRow row) ∧
    disk w !! file_coadd (SURVEY row) (PROGRAM row) (HEALPIX row)
      = Some hdul ∧
    hdul_getitem hdul "FIBERMAP" = Returns fibermap ∧
    row_index fibermap targetid = Returns ispec ∧
    hdul_getitem hdul (filter +:+ "_WAVELENGTH") = Returns hdu ∧
    astype_float hdu = Returns wavelength ∧
    section hdul (filter +:+ "_FLUX") ispec = Returns flux ∧
    section hdul (filter +:+ "_IVAR") ispec = Returns ivar ∧
    section hdul (filter +:+ "_MASK") ispec = Returns mask ∧
    table_csv wavelength flux ivar mask = Returns (content response).
Proof.
  intros Hret.
  destruct (csv_returns_inv _ _ _ _ Hret)
    as (zall & row & hdul & fibermap & ispec & hdu & wavelength & flux &
        ivar & mask & ? & ? & ? & ? & ? & ? & ? & ? & ? & ? & ? & ?).
  split; [done|].
  exists zall, row, hdul, fibermap, ispec, hdu, wavelength, flux, ivar, mask.
  by repeat (split; [done|]).
Qed.

Lemma csv_table_of_arm_witness :
  ∃ response ispec flux,
    (coadd_csv Demo.targetid None Demo.world).1 = Returns response ∧
    media_type response = "text/csv" ∧
    row_index Demo.fibermap Demo.targetid = Returns ispec ∧
    section Demo.coadd "R_FLUX" ispec = Returns flux.
Proof.
  assert (∃ response,
            (get_coadd_spectrum_csv Demo.targetid "R" Demo.world).1 =
              Returns response) as [response Hret]
    by (eexists; vm_compute; reflexivity).
  destruct (csv_table_of_arm Demo.targetid "R" Demo.world response Hret)
    as (Hmedia & zall & row & hdul & fibermap & ispec & hdu & wavelength &
        flux & ivar & mask & Hzall & Hloc & Hdisk & Hfm & Hidx & _ & _ &
        Hflux & _).
  injection Hzall as <-. injection Hloc as <-.
  injection Hdisk as <-. injection Hfm as <-.
  by exists response, ispec, flux.
Defined.

(** X16. The two handlers serve the same rows.  When, for one
    identifier and one of the arms B, R, Z, the JSON handler returns a
    document and the CSV handler a table, the flux, ivar and mask
    entries of the arm in the document are the lists of the very
    sections the table was written from. *)
Theorem handlers_serve_same_rows `{Library}
    targetid arm key w info scores (data : dict) response :
  (arm, key) ∈ arm_names →
  (get_coadd_spectrum_json targetid w).1 =
    Returns (PyDict [("zall_pix_info", PyDict info);
                     ("scores", PyDict scores);
                     ("data", PyDict data)]) →
  (get_coadd_spectrum_csv targetid arm w).1 = Returns response →
  ∃ wavelength flux ivar mask,
    table_csv wavelength flux ivar mask = Returns (content response) ∧
    dict_get data (key +:+ "_flux") = Some (tolist flux) ∧
    dict_get data (key +:+ "_ivar") = Some (tolist ivar) ∧
    dict_get data (key +:+ "_mask") = Some (tolist mask).
Proof.
  intros Harm Hjson Hcsv.
  destruct (json_returns_inv _ _ _ Hjson)
    as (zall & row & hdul & fibermap & ispec & rec & scores' & b & r & z &
        Hzall & Hloc & Hdisk & Hfm & Hidx & _ & _ & Hb & Hr & Hz & Hout).
  injection Hout as _ _ ->.
  destruct (csv_returns_inv _ _ _ _ Hcsv)
    as (zall' & row' & hdul' & fibermap' & ispec' & hdu & wavelength & flux &
        ivar & mask & Hzall' & Hloc' & Hdisk' & Hfm' & Hidx' & _ & _ &
        Hflux & Hivar & Hmask & Htable & _).
  rewrite Hzall in Hzall'. injection Hzall' as <-.
  rewrite Hloc in Hloc'. injection Hloc' as <-.
  rewrite Hdisk in Hdisk'. injection Hdisk' as <-.
  rewrite Hfm in Hfm'. injection Hfm' as <-.
  rewrite Hidx in Hidx'. injection Hidx' as <-.
  exists wavelength, flux, ivar, mask. split; [done|].
  apply read_arm_reads in Hb as (? & fb & ib & mb & _ & Hfb & Hib & Hmb & ->).
  apply read_arm_reads in Hr as (? & fr & ir & mr & _ & Hfr & Hir & Hmr & ->).
  apply read_arm_reads in Hz as (? & fz & iz & mz & _ & Hfz & Hiz & Hmz & ->).
  unfold arm_names in Harm.
  repeat (apply elem_of_cons in Harm as [[= -> ->]|Harm];
          [repeat match goal with
                  | H1 : ?x = Returns _, H2 : ?x = Returns _ |- _ =>
                      rewrite H1 in H2; injection H2 as <-
                  end;
           repeat split; reflexivity|]).
  by apply elem_of_nil in Harm.
Qed.

Lemma handlers_serve_same_rows_witness :
  ∃ info scores (data : dict) response wavelength flux ivar mask,
    (get_coadd_spectrum_json Demo.targetid Demo.world).1 =
      Returns (PyDict [("zall_pix_info", PyDict info);
                       ("scores", PyDict scores);
                       ("data", PyDict data)]) ∧
    (get_coadd_spectrum_csv Demo.targetid "Z" Demo.world).1 = Returns response ∧
    table_csv wavelength flux ivar mask = Returns (content response) ∧
    dict_get data "z_flux" = Some (tolist flux).
Proof.
  assert (∃ info scores data,
            (get_coadd_spectrum_json Demo.targetid Demo.world).1 =
              Returns (PyDict [("zall_pix_info", PyDict info);
                               ("scores", PyDict scores);
                               ("data", PyDict data)]))
    as (info & scores & data & Hjson)
    by (do 3 eexists; vm_compute; reflexivity).
  assert (∃ response,
            (get_coadd_spectrum_csv Demo.targetid "Z" Demo.world).1 =
              Returns response) as [response Hcsv]
    by (eexists; vm_compute; reflexivity).
  assert (("Z", "z") ∈ arm_names) as Harm
    by (apply (bool_decide_unpack _); vm_compute; exact I).
  destruct (handlers_serve_same_rows Demo.targetid "Z" "z" Demo.world
              info scores data response Harm Hjson Hcsv)
    as (wavelength & flux & ivar & mask & Htable & Hflux & _).
  exists info, scores, data, response, wavelength, flux, ivar, mask.
  split; [exact Hjson|]. split; [exact Hcsv|]. split; [exact Htable|].
  exact Hflux.
Defined.

(** X17. A [SCORES] table too short for the object's row is an internal
    error of the JSON handler: when the fibermap has the identifier at
    offset [ispec] and some column of [SCORES] has no row [ispec], the
    handler raises the 500 response with the text of the [IndexError]. *)
Theorem short_scores_is_internal_error `{Library}
    targetid w zall row hdul fibermap ispec rec key col :
  payload w !! "zall" = Some zall →
  loc zall targetid = Returns (LocRow row) →
  disk w !! file_coadd (SURVEY row) (PROGRAM row) (HEALPIX row) = Some hdul →
  hdul_getitem hdul "FIBERMAP" = Returns fibermap →
  row_index fibermap targetid = Returns ispec →
  hdul_getitem hdul "SCORES" = Returns (BinTableHDU rec) →
  rec_field rec key = Returns col →
  (length col ≤ ispec)%nat →
  (get_coadd_spectrum_json targetid w).1 =
    Raises (HTTPException 500
      ("Internal Server Error: " +:+ exc_str IndexError)).
Proof.
  intros Hzall Hloc Hdisk Hfm Hidx Hsc Hcol Hshort.
  assert (rec2dict rec ispec = Raises IndexError) as Hscores.
  { pose proof (rec2dict_loop_range rec ispec rec.*1 []
                  (rec_field_is_Returns rec)) as Hrange.
    unfold rec2dict.
    destruct (rec2dict_loop rec ispec rec.*1 []) as [d|e].
    - destruct (Hrange key col (rec_field_key _ _ _ Hcol) Hcol) as [v Hv].
      apply lookup_lt_Some in Hv. lia.
    - by destruct Hrange as [-> _]. }
  rewrite (json_run _ _ _ Hzall), (json_body_found _ _ _ _ _ Hloc Hdisk).
  unfold mbind, outcome_bind. by rewrite Hfm, Hidx, Hsc, Hscores.
Qed.

Lemma short_scores_is_internal_error_witness :
  (get_coadd_spectrum_json Demo.targetid
     (Demo.world_of (("FIBERMAP", Demo.fibermap) ::
                     ("SCORES", BinTableHDU [("TSNR2_LRG",
                        [NpScalar (NpFloat float32 Demo.one)])]) ::
                     Demo.arms))).1 =
    Raises (HTTPException 500
      "Internal Server Error: index 0 is out of bounds for axis 0 with size 0").
Proof.
  assert (length [NpScalar (NpFloat float32 Demo.one)] ≤ 1)%nat as Hshort
    by (simpl; lia).
  exact (short_scores_is_internal_error Demo.targetid
           (Demo.world_of (("FIBERMAP", Demo.fibermap) ::
                           ("SCORES", BinTableHDU [("TSNR2_LRG",
                              [NpScalar (NpFloat float32 Demo.one)])]) ::
                           Demo.arms))
           Demo.zall Demo.row _ Demo.fibermap 1%nat
           [("TSNR2_LRG", [NpScalar (NpFloat float32 Demo.one)])]
           "TSNR2_LRG" [NpScalar (NpFloat float32 Demo.one)]
           eq_refl eq_refl eq_refl eq_refl eq_refl eq_refl eq_refl Hshort).
Defined.
